(** * Snow-report extraction engine ([scrapers.py]): shallow embedding

    The development follows the layout of the Python module:
    - [PyStr]: the string operations the scraper relies on ([lower], [in],
      [strip], slicing, [replace], [int]);
    - [Re]: a backtracking matcher for the fragment of Python's [re] syntax
      that the scraper's patterns use, with Python's priorities (leftmost
      match, ordered alternation, greedy and lazy repetition);
    - [PyFloat]: IEEE-754 binary64 arithmetic (the Standard Library's
      [SpecFloat]) for [inches_to_cm] and [fahrenheit_to_celsius];
    - the scraper itself: [SnowDataScraper] and [VailResortsScraper].

    Text is a [string] whose characters are read as the code points
    U+0000..U+00FF. *)

From Stdlib Require Import ZArith Lia List Ascii String Bool QArith Qround Qabs SpecFloat.
From stdpp Require Import base option list gmap strings.

Local Open Scope string_scope.
Local Open Scope Z_scope.

(** ** Python strings *)

Module PyStr.

Definition code (c : ascii) : N := N_of_ascii c.

Definition in_range (lo hi : N) (c : ascii) : bool :=
  ((lo <=? code c) && (code c <=? hi))%N.

(** [\d] on a [str] pattern. *)
Definition is_digit (c : ascii) : bool := in_range 48 57 c.

(** [\s] on a [str] pattern, which is also what [str.strip()] removes:
    tab, LF, VT, FF, CR, FS, GS, RS, US, space, NEL, NBSP. *)
Definition is_space (c : ascii) : bool :=
  in_range 9 13 c || in_range 28 32 c
  || (code c =? 133)%N || (code c =? 160)%N.

(** [str.lower()] on one character. *)
Definition lower_char (c : ascii) : ascii :=
  if in_range 65 90 c then ascii_of_N (code c + 32)
  else if in_range 192 222 c && negb (code c =? 215)%N
       then ascii_of_N (code c + 32)
       else c.

Fixpoint lower (s : string) : string :=
  match s with
  | EmptyString => EmptyString
  | String c s' => String (lower_char c) (lower s')
  end.

Fixpoint starts_with (p s : string) : bool :=
  match p, s with
  | EmptyString, _ => true
  | String a p', String b s' => Ascii.eqb a b && starts_with p' s'
  | String _ _, EmptyString => false
  end.

(** [sub in s]. *)
Fixpoint contains (sub s : string) : bool :=
  starts_with sub s ||
  match s with
  | EmptyString => false
  | String _ s' => contains sub s'
  end.

(** [s[:n]]. *)
Fixpoint take (n : nat) (s : string) : string :=
  match n, s with
  | S n', String c s' => String c (take n' s')
  | _, _ => EmptyString
  end.

Fixpoint lstrip (s : string) : string :=
  match s with
  | String c s' => if is_space c then lstrip s' else s
  | EmptyString => EmptyString
  end.

Fixpoint rev_onto (s acc : string) : string :=
  match s with
  | EmptyString => acc
  | String c s' => rev_onto s' (String c acc)
  end.

Definition rev (s : string) : string := rev_onto s EmptyString.

(** [s.strip()]. *)
Definition strip (s : string) : string := rev (lstrip (rev (lstrip s))).

(** [s.replace(c, '')] for a one-character [c]. *)
Fixpoint remove_char (c : ascii) (s : string) : string :=
  match s with
  | EmptyString => EmptyString
  | String x s' =>
      if Ascii.eqb x c then remove_char c s' else String x (remove_char c s')
  end.

Definition digit_val (c : ascii) : Z := Z.of_N (code c) - 48.

Fixpoint all_digits (s : string) : bool :=
  match s with
  | EmptyString => true
  | String c s' => is_digit c && all_digits s'
  end.

Fixpoint digits_val (acc : Z) (s : string) : Z :=
  match s with
  | EmptyString => acc
  | String c s' => digits_val (10 * acc + digit_val c) s'
  end.

(** [int(s)] on the strings the patterns capture: an optional minus sign
    and decimal digits.  [None] is [ValueError]. *)
Definition int_of_str (s : string) : option Z :=
  match s with
  | EmptyString => None
  | String c s' =>
      if Ascii.eqb c "-" then
        match s' with
        | EmptyString => None
        | _ => if all_digits s' then Some (- digits_val 0 s') else None
        end
      else if all_digits s then Some (digits_val 0 s) else None
  end.

End PyStr.

(** ** Regular expressions

    The fragment of [re] used by the scraper: literals, the classes [\d],
    [\s], [.] and bracket sets, sequence, ordered alternation, greedy [?],
    greedy [*] and [+] and lazy [*?] over a single-character class, numbered
    groups and [$].  Matching is by backtracking, in the order [re] tries
    the alternatives. *)

Module Re.
Import PyStr.

Inductive cset :=
| CChar (c : ascii)
| CDigit
| CSpace
| CDot
| CUnion (a b : cset).

Fixpoint cset_mem (icase : bool) (cs : cset) (x : ascii) : bool :=
  match cs with
  | CChar c =>
      if icase then Ascii.eqb (lower_char x) (lower_char c) else Ascii.eqb x c
  | CDigit => is_digit x
  | CSpace => is_space x
  | CDot => negb (code x =? 10)%N
  | CUnion a b => cset_mem icase a x || cset_mem icase b x
  end.

Inductive regex :=
| REmpty
| RSet (cs : cset)
| RSeq (r1 r2 : regex)
| RAlt (r1 r2 : regex)
| ROpt (r : regex)
| RStar (cs : cset)
| RPlus (cs : cset)
| RLazyStar (cs : cset)
| RGroup (n : nat) (r : regex)
| REnd.

(** Captured groups, most recent binding first. *)
Definition groups := list (nat * string).

Fixpoint group_lookup (g : groups) (n : nat) : option string :=
  match g with
  | [] => None
  | (m, s) :: g' => if Nat.eqb m n then Some s else group_lookup g' n
  end.

(** The part of [s] consumed when the rest is [s']. *)
Definition consumed (s s' : string) : string :=
  take (String.length s - String.length s') s.

(** [$] without [re.MULTILINE]: at the end, or before a final newline. *)
Definition at_end (s : string) : bool :=
  match s with
  | EmptyString => true
  | String c EmptyString => (code c =? 10)%N
  | _ => false
  end.

Section Matcher.
Context {A : Type}.
Variable icase : bool.

Fixpoint star_greedy (cs : cset) (s : string) (k : string -> option A)
  : option A :=
  match s with
  | String x s' =>
      if cset_mem icase cs x then
        match star_greedy cs s' k with
        | Some a => Some a
        | None => k s
        end
      else k s
  | EmptyString => k s
  end.

Fixpoint star_lazy (cs : cset) (s : string) (k : string -> option A)
  : option A :=
  match k s with
  | Some a => Some a
  | None =>
      match s with
      | String x s' => if cset_mem icase cs x then star_lazy cs s' k else None
      | EmptyString => None
      end
  end.

Fixpoint rmatch (r : regex) (s : string) (g : groups)
  (k : string -> groups -> option A) : option A :=
  match r with
  | REmpty => k s g
  | RSet cs =>
      match s with
      | String x s' => if cset_mem icase cs x then k s' g else None
      | EmptyString => None
      end
  | RSeq r1 r2 => rmatch r1 s g (fun s' g' => rmatch r2 s' g' k)
  | RAlt r1 r2 =>
      match rmatch r1 s g k with
      | Some a => Some a
      | None => rmatch r2 s g k
      end
  | ROpt r1 =>
      match rmatch r1 s g k with
      | Some a => Some a
      | None => k s g
      end
  | RStar cs => star_greedy cs s (fun s' => k s' g)
  | RPlus cs =>
      match s with
      | String x s' =>
          if cset_mem icase cs x then star_greedy cs s' (fun s'' => k s'' g)
          else None
      | EmptyString => None
      end
  | RLazyStar cs => star_lazy cs s (fun s' => k s' g)
  | RGroup n r1 =>
      rmatch r1 s g (fun s' g' => k s' ((n, consumed s s') :: g'))
  | REnd => if at_end s then k s g else None
  end.
End Matcher.

(** A match object: [group(0)] and the numbered groups. *)
Record Match := { group0 : string; captures : groups }.

Definition group (m : Match) (n : nat) : option string :=
  match n with
  | O => Some (group0 m)
  | _ => group_lookup (captures m) n
  end.

(** [re.match]: a match anchored at the start of [s]. *)
Definition match_at (icase : bool) (r : regex) (s : string) : option Match :=
  rmatch icase r s []
    (fun s' g => Some {| group0 := consumed s s'; captures := g |}).

(** [re.search]: the leftmost match. *)
Fixpoint search (icase : bool) (r : regex) (s : string) : option Match :=
  match match_at icase r s with
  | Some m => Some m
  | None =>
      match s with
      | String _ s' => search icase r s'
      | EmptyString => None
      end
  end.

(** [re.finditer]: the non-overlapping matches, left to right.  [skip]
    counts the characters of the previous match still to be passed over.
    (None of the scraper's patterns matches the empty string; after an
    empty match the scan moves on by one character.) *)
Fixpoint finditer_from (icase : bool) (r : regex) (s : string) (skip : nat)
  : list Match :=
  match skip with
  | S n =>
      match s with
      | String _ s' => finditer_from icase r s' n
      | EmptyString => []
      end
  | O =>
      match match_at icase r s with
      | Some m =>
          m :: match s with
               | String _ s' =>
                   finditer_from icase r s' (Nat.pred (String.length (group0 m)))
               | EmptyString => []
               end
      | None =>
          match s with
          | String _ s' => finditer_from icase r s' O
          | EmptyString => []
          end
      end
  end.

Definition finditer (icase : bool) (r : regex) (s : string) : list Match :=
  finditer_from icase r s O.

(** *** Pattern combinators *)

Fixpoint lit (s : string) : regex :=
  match s with
  | EmptyString => REmpty
  | String c EmptyString => RSet (CChar c)
  | String c s' => RSeq (RSet (CChar c)) (lit s')
  end.

Fixpoint seq (rs : list regex) : regex :=
  match rs with
  | [] => REmpty
  | [r] => r
  | r :: rs' => RSeq r (seq rs')
  end.

Fixpoint alt (rs : list regex) : regex :=
  match rs with
  | [] => REmpty
  | [r] => r
  | r :: rs' => RAlt r (alt rs')
  end.

End Re.

(** ** Python numbers

    [float] is IEEE-754 binary64 with round-to-nearest-even, [int] is
    unbounded.  A result [None] stands for a raised exception
    ([OverflowError], or [ValueError] for [int(nan)]). *)

Module PyFloat.

Definition prec : Z := 53.
Definition emax : Z := 1024.

Inductive pynum :=
| PyInt (n : Z)
| PyFloat (f : spec_float).

(** An integer as an exact (not yet rounded) binary value. *)
Definition exact_int (n : Z) : spec_float :=
  match n with
  | Z0 => S754_zero false
  | Zpos p => S754_finite false p 0
  | Zneg p => S754_finite true p 0
  end.

Definition overflow_check (f : spec_float) : option spec_float :=
  match f with
  | S754_infinity _ => None
  | _ => Some f
  end.

(** [float(n)]: the nearest double, [OverflowError] beyond the range. *)
Definition float_of_int (n : Z) : option spec_float :=
  overflow_check (binary_normalize prec emax n 0 false).

(** The operand conversion of a mixed [int]/[float] operation. *)
Definition as_float (x : pynum) : option spec_float :=
  match x with
  | PyInt n => float_of_int n
  | PyFloat f => Some f
  end.

(** [int(f)]: truncation toward zero. *)
Definition int_of_float (f : spec_float) : option Z :=
  match f with
  | S754_zero _ => Some 0
  | S754_finite s m e =>
      Some (cond_Zopp s (if 0 <=? e then Zpos m * 2 ^ e else Zpos m / 2 ^ (- e)))
  | S754_infinity _ | S754_nan => None
  end.

(** [a / b] on two [int]s, [b] positive: the correctly rounded quotient. *)
Definition int_true_div (a : Z) (b : positive) : option spec_float :=
  overflow_check (SFdiv prec emax (exact_int a) (S754_finite false b 0)).

(** The literal [2.54]: the double nearest to 254/100. *)
Definition lit_2_54 : spec_float := S754_finite false 5719571526760530 (-51).

Definition lit_32 : spec_float := S754_finite false 4503599627370496 (-47).
Definition lit_5 : spec_float := S754_finite false 5629499534213120 (-50).
Definition lit_9 : spec_float := S754_finite false 5066549580791808 (-49).

(** The integer nearest to [m * 2^e] (a positive magnitude), ties to even. *)
Definition round_half_even (m : Z) (e : Z) : Z :=
  if 0 <=? e then m * 2 ^ e
  else
    let d := 2 ^ (- e) in
    let q := m / d in
    let r := m mod d in
    match 2 * r ?= d with
    | Lt => q
    | Gt => q + 1
    | Eq => if Z.even q then q else q + 1
    end.

(** [round(x, 1)]: [x] to the nearest multiple of one tenth (ties to even
    on the exact binary value), then to the nearest double. *)
Definition round1 (x : spec_float) : spec_float :=
  match x with
  | S754_finite s m e =>
      match round_half_even (Zpos m * 10) e with
      | Zpos k => SFdiv prec emax (S754_finite s k 0) (S754_finite false 10 0)
      | _ => S754_zero s
      end
  | _ => x
  end.

End PyFloat.

(** ** Values, dictionaries, documents *)

Record date := { year : Z; month : Z; day : Z }.

(** The values the scraper stores in its result dictionaries. *)
Inductive pyval :=
| VNone
| VInt (n : Z)
| VFloat (f : spec_float)
| VStr (s : string)
| VDate (d : date).

(** Truth value of a Python object. *)
Definition truthy (v : pyval) : bool :=
  match v with
  | VNone => false
  | VInt n => negb (n =? 0)
  | VFloat (S754_zero _) => false
  | VFloat _ => true
  | VStr s => negb (String.eqb s "")
  | VDate _ => true
  end.

(** A [dict] with string keys. *)
Abbreviation pydict := (gmap string pyval).

(** [data.get(k)] in a boolean context. *)
Definition get_truthy (data : pydict) (k : string) : bool :=
  match data !! k with
  | Some v => truthy v
  | None => false
  end.

(** [data.update(other)]. *)
Definition dict_update (data other : pydict) : pydict := other ∪ data.

(** A [<meta>] element: its [content], [name] and [property] attributes,
    [None] when the attribute is missing. *)
Record Meta := {
  meta_content : option string;
  meta_name : option string;
  meta_property : option string
}.

(** An element found by the Vail selectors: [elem.get_text()] and
    [str(elem.parent)]. *)
Record DepthElem := { elem_text : string; elem_parent : string }.

(** A parsed page ([BeautifulSoup]), seen through the queries the scraper
    makes on it, each in document order:
    - [data_snow_attrs]: [elem.get('data-snow', '')] for the elements of
      [soup.find_all(attrs={'data-snow': True})];
    - [meta_tags]: [soup.find_all('meta')];
    - [snow_containers]: [container.get_text()] for the div, span, p and td
      elements whose class matches [snow|depth|powder|condition];
    - [text_content]: [soup.get_text()];
    - [depth_elements]: the elements found by the three Vail selectors, one
      selector after the other. *)
Record Document := {
  data_snow_attrs : list string;
  meta_tags : list Meta;
  snow_containers : list string;
  text_content : string;
  depth_elements : list DepthElem
}.

(** The result of a call: a value, or an exception that escaped. *)
Inductive outcome (A : Type) :=
| Returned (a : A)
| Raised.
Arguments Returned {A} a.
Arguments Raised {A}.

(** What a scrape does to the outside world. *)
Inductive event :=
| EvFetch (url : string)
| EvSleep (seconds : Z).

(** A resort entry ([resort_data]): the three keys the scrapers read.
    [None] is a missing key or a [None] value. *)
Record Resort := {
  name : string;
  snow_report_url : option string;
  website_url : option string
}.

(** Truth value of an optional string. *)
Definition str_truthy (o : option string) : bool :=
  match o with
  | Some s => negb (String.eqb s "")
  | None => false
  end.

(** [a or b] *)
Definition py_or (a b : option string) : option string :=
  if str_truthy a then a else b.

Definition val_of_str (o : option string) : pyval :=
  match o with
  | Some s => VStr s
  | None => VNone
  end.

(** ** [class SnowDataScraper] *)

Module SnowDataScraper.
Import PyStr Re PyFloat.

(** The double-quote and degree characters. *)
Definition dquote : ascii := ascii_of_N 34.
Definition degree : ascii := ascii_of_N 176.

(** [(\d+)] *)
Definition re_number : regex := RGroup 1 (RPlus CDigit).

(** [extract_number] *)
Definition extract_number (text : string) : option Z :=
  if String.eqb text "" then None
  else
    match search false re_number (remove_char "," text) with
    | Some m => s ← group m 1; int_of_str s
    | None => None
    end.

(** [inches_to_cm]: [int(inches * 2.54)] *)
Definition inches_to_cm (inches : pynum) : option Z :=
  x ← as_float inches;
  int_of_float (SFmul prec emax x lit_2_54).

(** [fahrenheit_to_celsius]: [round((fahrenheit - 32) * 5/9, 1)] *)
Definition fahrenheit_to_celsius (fahrenheit : pynum) : option spec_float :=
  match fahrenheit with
  | PyInt n =>
      q ← int_true_div ((n - 32) * 5) 9;
      Some (round1 q)
  | PyFloat f =>
      Some (round1 (SFdiv prec emax
                      (SFmul prec emax (SFsub prec emax f lit_32) lit_5)
                      lit_9))
  end.

(** The inline unit test [if 'in' in unit or DQUOTE in unit] followed by
    the conversion. *)
Definition convert_if_inches (unit : string) (value : Z) : option Z :=
  if contains "in" unit || contains (String dquote "") unit
  then inches_to_cm (PyInt value)
  else Some value.

(** [find_json_data].  The JSON-LD blocks are only logged; the
    [data-snow] attributes set the 24-hour snowfall. *)
Definition find_json_data (soup : Document) : pydict :=
  fold_left
    (fun data attr =>
       match extract_number attr with
       | Some snow_val =>
           if negb (snow_val =? 0)
           then <["new_snow_24h_cm" := VInt snow_val]> data
           else data
       | None => data
       end)
    (data_snow_attrs soup) ∅.

(** [(\d+)\s*(in|inch|cm|\x22)] *)
Definition re_meta_number : regex :=
  seq [re_number; RStar CSpace;
       RGroup 2 (alt [lit "in"; lit "inch"; lit "cm"; RSet (CChar dquote)])].

(** One iteration of the loop of [extract_from_meta_tags]. *)
Definition meta_step (data : pydict) (meta : Meta) : option pydict :=
  let content := lower (default "" (meta_content meta)) in
  let name := lower (default "" (meta_name meta) ++ default "" (meta_property meta)) in
  if contains "snow" name || contains "snow" content then
    match finditer false re_meta_number content with
    | m :: _ =>
        s ← group m 1;
        unit ← group m 2;
        value ← int_of_str s;
        value ← convert_if_inches unit value;
        if contains "base" content then
          Some (<["snow_depth_base_cm" := VInt value]> data)
        else if contains "new" content || contains "fresh" content then
          Some (<["new_snow_24h_cm" := VInt value]> data)
        else Some data
    | [] => Some data
    end
  else Some data.

(** A [for] loop whose body may raise. *)
Fixpoint for_each {S X : Type} (body : S -> X -> option S) (xs : list X) (st : S)
  : option S :=
  match xs with
  | [] => Some st
  | x :: xs' => st' ← body st x; for_each body xs' st'
  end.

(** [extract_from_meta_tags] *)
Definition extract_from_meta_tags (soup : Document) : option pydict :=
  for_each meta_step (meta_tags soup) ∅.

(** [(?:in|inch|\x22|cm)] *)
Definition re_unit : regex :=
  alt [lit "in"; lit "inch"; RSet (CChar dquote); lit "cm"].

(** [[:\s]+] *)
Definition re_sep : regex := RPlus (CUnion (CChar ":") CSpace).

(** [(\d+)\s*(?:in|inch|\x22|cm)] *)
Definition re_depth : regex := seq [re_number; RStar CSpace; re_unit].

(** One of the two [if] blocks in the loop over [snow_containers]. *)
Definition container_field (keyword : regex) (key : string) (text : string)
  (data : pydict) : option pydict :=
  match search true keyword text with
  | Some _ =>
      match search true re_depth text with
      | Some depth_match =>
          if negb (get_truthy data key) then
            s ← group depth_match 1;
            value ← int_of_str s;
            value ← convert_if_inches (lower (group0 depth_match)) value;
            Some (<[key := VInt value]> data)
          else Some data
      | None => Some data
      end
  | None => Some data
  end.

(** One iteration of the loop over [snow_containers]. *)
Definition container_step (data : pydict) (container : string) : option pydict :=
  let text := strip container in
  data ← container_field (alt [lit "base"; lit "lower"; lit "bottom"])
         "snow_depth_base_cm" text data;
  container_field (alt [lit "summit"; lit "top"; lit "upper"; lit "peak"])
    "snow_depth_summit_cm" text data.

(** [(?:24|twenty.?four)] and its 48 counterpart, [(?:hr|hour|h)]. *)
Definition re_24 : regex :=
  alt [lit "24"; seq [lit "twenty"; ROpt (RSet CDot); lit "four"]].
Definition re_48 : regex :=
  alt [lit "48"; seq [lit "forty"; ROpt (RSet CDot); lit "eight"]].
Definition re_hr : regex := alt [lit "hr"; lit "hour"; lit "h"].

(** The [patterns] dictionary, in insertion order. *)
Definition patterns : list (string * list regex) :=
  [ ("base_depth",
      [ (* base[:\s]+(\d+)\s*(?:in|inch|\x22|cm) *)
        seq [lit "base"; re_sep; re_number; RStar CSpace; re_unit];
        (* (?:lower|bottom)[:\s]+(\d+)\s*(?:in|inch|\x22|cm) *)
        seq [alt [lit "lower"; lit "bottom"]; re_sep; re_number; RStar CSpace; re_unit];
        (* (\d+)\s*(?:in|inch|\x22|cm)[:\s]+base *)
        seq [re_number; RStar CSpace; re_unit; re_sep; lit "base"];
        (* base\s+depth[:\s]+(\d+) *)
        seq [lit "base"; RPlus CSpace; lit "depth"; re_sep; re_number];
        (* snow\s+depth.*?base.*?(\d+) *)
        seq [lit "snow"; RPlus CSpace; lit "depth"; RLazyStar CDot; lit "base";
             RLazyStar CDot; re_number] ]);
    ("summit_depth",
      [ (* summit[:\s]+(\d+)\s*(?:in|inch|\x22|cm) *)
        seq [lit "summit"; re_sep; re_number; RStar CSpace; re_unit];
        (* (?:top|upper|peak)[:\s]+(\d+)\s*(?:in|inch|\x22|cm) *)
        seq [alt [lit "top"; lit "upper"; lit "peak"]; re_sep; re_number;
             RStar CSpace; re_unit];
        (* (\d+)\s*(?:in|inch|\x22|cm)[:\s]+(?:summit|top) *)
        seq [re_number; RStar CSpace; re_unit; re_sep; alt [lit "summit"; lit "top"]];
        (* summit\s+depth[:\s]+(\d+) *)
        seq [lit "summit"; RPlus CSpace; lit "depth"; re_sep; re_number] ]);
    ("24h_snow",
      [ (* (?:24|twenty.?four)\s*(?:hr|hour|h)[:\s]+(\d+) *)
        seq [re_24; RStar CSpace; re_hr; re_sep; re_number];
        (* overnight[:\s]+(\d+) *)
        seq [lit "overnight"; re_sep; re_number];
        (* last\s+24[:\s]+(\d+) *)
        seq [lit "last"; RPlus CSpace; lit "24"; re_sep; re_number];
        (* new\s+snow[:\s]+(\d+) *)
        seq [lit "new"; RPlus CSpace; lit "snow"; re_sep; re_number];
        (* (?:24|twenty.?four)\s*(?:hr|hour|h).*?(\d+)\s*(?:in|inch|\x22|cm) *)
        seq [re_24; RStar CSpace; re_hr; RLazyStar CDot; re_number; RStar CSpace; re_unit];
        (* (\d+)\s*(?:in|inch|\x22|cm).*?(?:24|overnight|new) *)
        seq [re_number; RStar CSpace; re_unit; RLazyStar CDot;
             alt [lit "24"; lit "overnight"; lit "new"]] ]);
    ("48h_snow",
      [ (* (?:48|forty.?eight)\s*(?:hr|hour|h)[:\s]+(\d+) *)
        seq [re_48; RStar CSpace; re_hr; re_sep; re_number];
        (* (?:2|two)\s+day[:\s]+(\d+) *)
        seq [alt [lit "2"; lit "two"]; RPlus CSpace; lit "day"; re_sep; re_number];
        (* last\s+48[:\s]+(\d+) *)
        seq [lit "last"; RPlus CSpace; lit "48"; re_sep; re_number] ]);
    ("7d_snow",
      [ (* (?:7|seven)\s+day[:\s]+(\d+) *)
        seq [alt [lit "7"; lit "seven"]; RPlus CSpace; lit "day"; re_sep; re_number];
        (* week[:\s]+(\d+) *)
        seq [lit "week"; re_sep; re_number];
        (* last\s+week[:\s]+(\d+) *)
        seq [lit "last"; RPlus CSpace; lit "week"; re_sep; re_number] ]) ].

(** [\d+\s*(?:in|inch|\x22)] *)
Definition re_inches : regex :=
  seq [RPlus CDigit; RStar CSpace; alt [lit "in"; lit "inch"; RSet (CChar dquote)]].

(** [key in [...]] *)
Definition key_in (key : string) (keys : list string) : bool :=
  existsb (String.eqb key) keys.

(** The [if]/[elif] chain mapping a pattern key to its database field. *)
Definition assign_field (key : string) (value : Z) (data : pydict) : pydict :=
  if String.eqb key "base_depth" then <["snow_depth_base_cm" := VInt value]> data
  else if String.eqb key "summit_depth" then <["snow_depth_summit_cm" := VInt value]> data
  else if String.eqb key "24h_snow" then <["new_snow_24h_cm" := VInt value]> data
  else if String.eqb key "48h_snow" then <["new_snow_48h_cm" := VInt value]> data
  else if String.eqb key "7d_snow" then <["new_snow_7d_cm" := VInt value]> data
  else data.

(** The loop [for match in matches]: the first match whose value passes
    the sanity checks is stored and ends the loop.  A match without group 1
    ([IndexError]) or whose group is not a number ([ValueError]) is passed
    over; an [OverflowError] of the conversion escapes. *)
Fixpoint try_matches (key : string) (is_inches : bool) (data : pydict)
  (matches : list Match) : option pydict :=
  match matches with
  | [] => Some data
  | m :: rest =>
      match s ← group m 1; int_of_str s with
      | None => try_matches key is_inches data rest
      | Some value =>
          let full_match := lower (group0 m) in
          value ←
            (if (contains "in" full_match || contains (String dquote "") full_match)
                || (is_inches && negb (contains "cm" full_match))
             then inches_to_cm (PyInt value)
             else Some value);
          if key_in key ["base_depth"; "summit_depth"]
             && ((value <? 5) || (value >? 1000))
          then try_matches key is_inches data rest
          else if key_in key ["24h_snow"; "48h_snow"; "7d_snow"] && (value >? 300)
          then try_matches key is_inches data rest
          else Some (assign_field key value data)
      end
  end.

(** [key.replace('_', '')] *)
Definition found_key (key : string) : string := remove_char "_" key.

(** The loop [for pattern in pattern_list]. *)
Fixpoint try_patterns (key : string) (is_inches : bool) (text_content : string)
  (data : pydict) (pattern_list : list regex) : option pydict :=
  match pattern_list with
  | [] => Some data
  | pattern :: rest =>
      data ← try_matches key is_inches data (finditer true pattern text_content);
      if get_truthy data (found_key key) then Some data
      else try_patterns key is_inches text_content data rest
  end.

(** The loop [for key, pattern_list in patterns.items()]. *)
Definition full_text_search (text_content : string) (data : pydict) : option pydict :=
  let is_inches :=
    match search false re_inches (take 1000 text_content) with
    | Some _ => true
    | None => false
    end in
  for_each
    (fun data '(key, pattern_list) =>
       if get_truthy data (found_key key) then Some data
       else try_patterns key is_inches text_content data pattern_list)
    patterns data.

(** [(\d+)\s*(?:of|/)\s*(\d+)\s+(?:lift|chair)] and the same for runs. *)
Definition re_ratio (what : regex) : regex :=
  seq [re_number; RStar CSpace; alt [lit "of"; lit "/"]; RStar CSpace;
       RGroup 2 (RPlus CDigit); RPlus CSpace; what].
Definition re_lifts : regex := re_ratio (alt [lit "lift"; lit "chair"]).
Definition re_runs : regex := re_ratio (alt [lit "trail"; lit "run"; lit "piste"]).

(** The lift and trail status blocks. *)
Definition ratio_status (pattern : regex) (open_key total_key : string)
  (text_content : string) (data : pydict) : option pydict :=
  match search true pattern text_content with
  | Some m =>
      s1 ← group m 1; n1 ← int_of_str s1;
      s2 ← group m 2; n2 ← int_of_str s2;
      Some (<[total_key := VInt n2]> (<[open_key := VInt n1]> data))
  | None => Some data
  end.

(** [temp_patterns] (matched without flags); [temp_tail] is [(?:\s|$|\.)]. *)
Definition temp_tail : regex := alt [RSet CSpace; REnd; RSet (CChar ".")].
(** [(\d+)\s*°?\s*[fF](?:\s|$|\.)] *)
Definition re_temp_f : regex :=
  seq [re_number; RStar CSpace; ROpt (RSet (CChar degree)); RStar CSpace;
       RSet (CUnion (CChar "f") (CChar "F")); temp_tail].

(** [(-?\d+)\s*°?\s*[cC](?:\s|$|\.)] *)
Definition re_temp_c : regex :=
  seq [RGroup 1 (RSeq (ROpt (RSet (CChar "-"))) (RPlus CDigit)); RStar CSpace;
       ROpt (RSet (CChar degree)); RStar CSpace;
       RSet (CUnion (CChar "c") (CChar "C")); temp_tail].

(** [temp(?:erature)?[:\s]+(\d+)] *)
Definition re_temp_label : regex :=
  seq [lit "temp"; ROpt (lit "erature"); re_sep; re_number].

Definition temp_patterns : list regex := [re_temp_f; re_temp_c; re_temp_label].

(** The body of [if temp_match:], up to the [break]. *)
Definition temperature_of_match (temp_match : Match) : option spec_float :=
  s ← group temp_match 1;
  temp ← int_of_str s;
  if contains "f" (lower (group0 temp_match)) || (temp >? 50)
  then fahrenheit_to_celsius (PyInt temp)
  else float_of_int temp.

(** The loop [for pattern in temp_patterns]. *)
Fixpoint temperature_search (text_content : string) (data : pydict)
  (pats : list regex) : option pydict :=
  match pats with
  | [] => Some data
  | pattern :: rest =>
      match search false pattern text_content with
      | Some temp_match =>
          t ← temperature_of_match temp_match;
          Some (<["temperature_base_c" := VFloat t]> data)
      | None => temperature_search text_content data rest
      end
  end.

(** The record as it stands after the structured-data, meta-tag and
    class-heuristic strategies. *)
Definition early_strategies (today : date) (soup : Document) (url : string)
  : option pydict :=
  let data : pydict :=
    <["scrape_date" := VDate today]> (<["scraped_url" := VStr url]> ∅) in
  let data := dict_update data (find_json_data soup) in
  meta_data ← extract_from_meta_tags soup;
  let data := dict_update data meta_data in
  for_each container_step (snow_containers soup) data.

(** [parse_snow_report_generic] *)
Definition parse_snow_report_generic (today : date) (soup : Document) (url : string)
  : option pydict :=
  data ← early_strategies today soup url;
  let text_content := text_content soup in
  data ← full_text_search text_content data;
  data ← ratio_status re_lifts "lifts_open" "lifts_total" text_content data;
  data ← ratio_status re_runs "runs_open" "runs_total" text_content data;
  temperature_search text_content data temp_patterns.

(** *** The per-resort loop

    [network] stands for the web during one run: the parsed page that a
    request for a URL yields, [None] when [get_page] logs an error and
    returns [None]. *)
Section Orchestration.
Variable today : date.
Variable network : string -> option Document.

(** [get_page] *)
Definition get_page (url : string) (tr : list event)
  : option Document * list event :=
  (network url, (tr ++ [EvFetch url])%list).

Definition urls_to_try (resort_data : Resort) : list string :=
  ((if str_truthy (snow_report_url resort_data)
    then [default "" (snow_report_url resort_data)] else [])
   ++ (if str_truthy (website_url resort_data)
       then [default "" (website_url resort_data)] else []))%list.

Definition meaningful_fields : list string :=
  ["snow_depth_base_cm"; "snow_depth_summit_cm"; "new_snow_24h_cm";
   "lifts_open"; "runs_open"].

(** [data and any(data.get(field) for field in meaningful_fields)] *)
Definition meaningful (data : pydict) : bool :=
  negb (bool_decide (data = ∅)) && existsb (get_truthy data) meaningful_fields.

(** The loop [for url in urls_to_try]: [Returned (Some data)] when the
    loop returns [data], [Returned None] when it runs to its end. *)
Fixpoint try_urls (urls : list string) (tr : list event)
  : outcome (option pydict) * list event :=
  match urls with
  | [] => (Returned None, tr)
  | url :: rest =>
      let '(soup, tr) := get_page url tr in
      match soup with
      | Some soup =>
          match parse_snow_report_generic today soup url with
          | Some data =>
              if meaningful data then (Returned (Some data), tr)
              else try_urls rest (tr ++ [EvSleep 1])%list
          | None => (Raised, tr)
          end
      | None => try_urls rest tr
      end
  end.

(** [SnowDataScraper.scrape_resort] *)
Definition scrape_resort (resort_data : Resort) (tr : list event)
  : outcome pydict * list event :=
  match try_urls (urls_to_try resort_data) tr with
  | (Returned (Some data), tr) => (Returned data, tr)
  | (Returned None, tr) =>
      (Returned
         (<["scrape_date" := VDate today]>
            (<["scraped_url" :=
                 val_of_str (py_or (snow_report_url resort_data)
                                   (website_url resort_data))]> ∅)),
       tr)
  | (Raised, tr) => (Raised, tr)
  end.
End Orchestration.

End SnowDataScraper.

(** ** [class VailResortsScraper(SnowDataScraper)] *)

Module VailResortsScraper.
Import PyStr Re PyFloat SnowDataScraper.

(** The body of [for elem in elements]. *)
Definition depth_step (data : pydict) (elem : DepthElem) : option pydict :=
  let text := strip (elem_text elem) in
  match finditer false re_number text with
  | m :: _ =>
      s ← group m 1;
      value ← int_of_str s;
      value_cm ← inches_to_cm (PyInt value);
      let context := lower (elem_parent elem) in
      if contains "base" context || contains "lower" context then
        Some (<["snow_depth_base_cm" := VInt value_cm]> data)
      else if contains "summit" context || contains "top" context
              || contains "upper" context then
        Some (<["snow_depth_summit_cm" := VInt value_cm]> data)
      else Some data
  | [] => Some data
  end.

(** The [try] block: an exception ends the loops and keeps what was stored
    so far. *)
Fixpoint depth_loop (data : pydict) (elems : list DepthElem) : pydict :=
  match elems with
  | [] => data
  | elem :: rest =>
      match depth_step data elem with
      | Some data' => depth_loop data' rest
      | None => data
      end
  end.

(** The record after the Vail-specific pass. *)
Definition specialized_pass (today : date) (soup : Document) (url : string)
  : pydict :=
  depth_loop
    (<["scrape_date" := VDate today]> (<["scraped_url" := VStr url]> ∅))
    (depth_elements soup).

(** [{k: v for k, v in generic_data.items() if k not in data or not data[k]}] *)
Definition fallback_items (data generic_data : pydict) : pydict :=
  filter (fun kv => get_truthy data kv.1 = false) generic_data.

Section Orchestration.
Variable today : date.
Variable network : string -> option Document.

(** [VailResortsScraper.scrape_resort] *)
Definition scrape_resort (resort_data : Resort) (tr : list event)
  : outcome pydict * list event :=
  let url := py_or (snow_report_url resort_data) (website_url resort_data) in
  if negb (str_truthy url) then (Returned ∅, tr)
  else
    let url := default "" url in
    let '(soup, tr) := get_page network url tr in
    match soup with
    | None => (Returned ∅, tr)
    | Some soup =>
        let data := specialized_pass today soup url in
        if negb (get_truthy data "snow_depth_base_cm") then
          match parse_snow_report_generic today soup url with
          | Some generic_data =>
              (Returned (dict_update data (fallback_items data generic_data)), tr)
          | None => (Raised, tr)
          end
        else (Returned data, tr)
    end.
End Orchestration.

End VailResortsScraper.

(** ** Choosing the scraper *)

Inductive scraper :=
| GenericScraper
| VailScraper.

Definition vail_resorts : list string :=
  ["Vail"; "Breckenridge"; "Keystone"; "Park City"; "Heavenly"; "Stowe";
   "Killington"].

(** [get_scraper_for_resort] *)
Definition get_scraper_for_resort (resort_name : string) : scraper :=
  if existsb (String.eqb resort_name) vail_resorts then VailScraper
  else GenericScraper.

(** [scraper.scrape_resort(resort)], by the class of [scraper]. *)
Definition scrape_with (s : scraper) (today : date)
  (network : string -> option Document)
  (resort_data : Resort) (tr : list event) : outcome pydict * list event :=
  match s with
  | GenericScraper => SnowDataScraper.scrape_resort today network resort_data tr
  | VailScraper => VailResortsScraper.scrape_resort today network resort_data tr
  end.

(** ** The batch runner and its caller *)

(** What a batch does to the outside world: the events of one resort's
    scrape, or the pause [time.sleep(delay)] between two resorts. *)
Inductive batch_event :=
| Within (e : event)
| Pause (delay : PyFloat.pynum).

(** The loop of [scrape_all_resorts]; [rest] nonempty is
    [i < len(resorts_list) - 1].  [time.sleep(delay)] raises instead of
    sleeping when it rejects its argument (a negative delay, or one beyond
    the platform's time range); [sleep_accepts] tells which delays it
    takes. *)
Fixpoint scrape_all_from (today : date) (network : string -> option Document)
  (sleep_accepts : PyFloat.pynum -> bool) (delay : PyFloat.pynum)
  (results : gmap string pydict) (resorts_list : list Resort)
  (btr : list batch_event) : outcome (gmap string pydict) * list batch_event :=
  match resorts_list with
  | [] => (Returned results, btr)
  | resort :: rest =>
      let scraper := get_scraper_for_resort (name resort) in
      match scrape_with scraper today network resort [] with
      | (Returned data, evs) =>
          let results := <[name resort := data]> results in
          let btr := (btr ++ map Within evs)%list in
          match rest with
          | [] => (Returned results, btr)
          | _ :: _ =>
              if sleep_accepts delay
              then scrape_all_from today network sleep_accepts delay results rest
                     (btr ++ [Pause delay])%list
              else (Raised, btr)
          end
      | (Raised, evs) => (Raised, (btr ++ map Within evs)%list)
      end
  end.

(** [scrape_all_resorts] *)
Definition scrape_all_resorts (today : date) (network : string -> option Document)
  (sleep_accepts : PyFloat.pynum -> bool) (resorts_list : list Resort)
  (delay : PyFloat.pynum)
  : outcome (gmap string pydict) * list batch_event :=
  scrape_all_from today network sleep_accepts delay ∅ resorts_list [].

(** [collect_data.collect_snow_data]: the test
    [any(k in snow_data for k in [...])] that decides whether a result is
    stored. *)
Definition has_data (snow_data : pydict) : bool :=
  existsb (fun k => bool_decide (is_Some (snow_data !! k)))
    ["snow_depth_base_cm"; "snow_depth_summit_cm"; "new_snow_24h_cm";
     "lifts_open"; "runs_open"].

(** ** Vocabulary of the statements *)

Local Open Scope list_scope.

(** The spec's [base_depth_cm] and [summit_depth_cm] are the dictionary keys
    [snow_depth_base_cm] and [snow_depth_summit_cm]. *)
Definition depth_fields : list string :=
  ["snow_depth_base_cm"; "snow_depth_summit_cm"].

Definition snowfall_fields : list string :=
  ["new_snow_24h_cm"; "new_snow_48h_cm"; "new_snow_7d_cm"].

(** The sanity bound of a field. *)
Definition within_bounds (k : string) (v : Z) : Prop :=
  (k ∈ depth_fields ∧ 5 <= v <= 1000) ∨ (k ∈ snowfall_fields ∧ v <= 300).

(** The URLs requested in a trace, in order. *)
Fixpoint fetched (tr : list event) : list string :=
  match tr with
  | [] => []
  | EvFetch url :: tr' => url :: fetched tr'
  | EvSleep _ :: tr' => fetched tr'
  end.

(** A candidate URL that does not end the generic loop: the fetch fails, or
    the extraction returns a record that is not meaningful. *)
Definition unproductive (today : date) (network : string -> option Document)
  (url : string) : Prop :=
  network url = None ∨
  ∃ soup data, network url = Some soup
    ∧ SnowDataScraper.parse_snow_report_generic today soup url = Some data
    ∧ SnowDataScraper.meaningful data = false.

(** The events of passing over a list of unproductive candidates. *)
Definition skip_events (network : string -> option Document) (urls : list string)
  : list event :=
  flat_map
    (fun url =>
       match network url with
       | None => [EvFetch url]
       | Some _ => [EvFetch url; EvSleep 1]
       end)
    urls.

(** A page that consists of plain text only. *)
Definition text_only (t : string) : Document :=
  {| data_snow_attrs := []; meta_tags := []; snow_containers := [];
     text_content := t; depth_elements := [] |}.

(** [d] differs from [d0] only in fields that hold a value within bounds. *)
Definition sane_step (d0 d : pydict) : Prop :=
  ∀ k, d !! k = d0 !! k ∨ ∃ v, d !! k = Some (VInt v) ∧ within_bounds k v.

(** Two keys that are set together: both absent, or both integers. *)
Definition paired (d : pydict) (a b : string) : Prop :=
  (d !! a = None ∧ d !! b = None)
  ∨ ∃ x y, d !! a = Some (VInt x) ∧ d !! b = Some (VInt y).

(** The characters that a match of [r] can contain. *)
Fixpoint allowed (icase : bool) (r : Re.regex) (x : ascii) : bool :=
  match r with
  | Re.REmpty | Re.REnd => false
  | Re.RSet cs | Re.RStar cs | Re.RPlus cs | Re.RLazyStar cs => Re.cset_mem icase cs x
  | Re.RSeq r1 r2 | Re.RAlt r1 r2 => allowed icase r1 x || allowed icase r2 x
  | Re.ROpt r1 | Re.RGroup _ r1 => allowed icase r1 x
  end.

Fixpoint str_all (P : ascii -> bool) (s : string) : bool :=
  match s with
  | EmptyString => true
  | String c s' => P c && str_all P s'
  end.

(** The match the temperature loop acts on: that of the first pattern, in
    the order of the list, that matches somewhere in the text. *)
Fixpoint first_temp_match (text : string) (pats : list Re.regex) : option Re.Match :=
  match pats with
  | [] => None
  | pattern :: rest =>
      match Re.search false pattern text with
      | Some m => Some m
      | None => first_temp_match text rest
      end
  end.

(** [int(match.group(1))] *)
Definition captured_int (m : Re.Match) : option Z :=
  s ← Re.group m 1; PyStr.int_of_str s.


(** A double that is not negative. *)
Definition is_nonneg (f : spec_float) : bool :=
  match f with
  | S754_zero _ => true
  | S754_finite s _ _ | S754_infinity s => negb s
  | S754_nan => false
  end.




#[global] Instance spec_float_eq_dec : EqDecision spec_float.
Proof. solve_decision. Defined.




(** The characters that group [n] of [r] can capture. *)
Fixpoint group_chars (icase : bool) (r : Re.regex) (n : nat) (x : ascii) : bool :=
  match r with
  | Re.RGroup m r1 =>
      (Nat.eqb m n && allowed icase r1 x) || group_chars icase r1 n x
  | Re.RSeq r1 r2 | Re.RAlt r1 r2 =>
      group_chars icase r1 n x || group_chars icase r2 n x
  | Re.ROpt r1 => group_chars icase r1 n x
  | _ => false
  end.

(** All 256 characters. *)
Definition all_chars : list ascii :=
  map (fun i => ascii_of_nat i) (List.seq 0 256).

(** Group [n] of [r] captures decimal digits only. *)
Definition digit_group (icase : bool) (r : Re.regex) (n : nat) : bool :=
  forallb (fun x => implb (group_chars icase r n x) (PyStr.is_digit x)) all_chars.

(** What a result dictionary may hold under a key: nothing else than the
    twelve fields, the counts and lengths as non-negative integers. *)
Definition field_ok (k : string) (v : pyval) : Prop :=
  (k = "scraped_url" ∧ ∃ s, v = VStr s)
  ∨ (k = "scrape_date" ∧ ∃ d, v = VDate d)
  ∨ (k = "temperature_base_c" ∧ ∃ f, v = VFloat f)
  ∨ (k ∈ ["snow_depth_base_cm"; "snow_depth_summit_cm"; "new_snow_24h_cm";
          "new_snow_48h_cm"; "new_snow_7d_cm"; "lifts_open"; "lifts_total";
          "runs_open"; "runs_total"]
     ∧ ∃ n, v = VInt n ∧ 0 <= n).

Definition record_ok (data : pydict) : Prop :=
  ∀ k v, data !! k = Some v -> field_ok k v.

(** The number of pauses in a batch trace. *)
Fixpoint pauses (btr : list batch_event) : nat :=
  match btr with
  | [] => O
  | Pause _ :: btr' => S (pauses btr')
  | Within _ :: btr' => pauses btr'
  end.

(** The URLs requested in a batch trace. *)
Fixpoint batch_fetched (btr : list batch_event) : list string :=
  match btr with
  | [] => []
  | Within (EvFetch url) :: btr' => url :: batch_fetched btr'
  | _ :: btr' => batch_fetched btr'
  end.

(** The leading decimal digits of a text, and what follows them. *)
Fixpoint take_digits (s : string) : string :=
  match s with
  | String x s' => if PyStr.is_digit x then String x (take_digits s') else EmptyString
  | EmptyString => EmptyString
  end.

Fixpoint skip_digits (s : string) : string :=
  match s with
  | String x s' => if PyStr.is_digit x then skip_digits s' else s
  | EmptyString => EmptyString
  end.

(** The first maximal run of decimal digits of a text. *)
Fixpoint first_number (s : string) : option string :=
  match s with
  | String x s' =>
      if PyStr.is_digit x then Some (String x (take_digits s')) else first_number s'
  | EmptyString => None
  end.

(** The non-zero numbers of the [data-snow] attributes of a page. *)
Definition data_snow_numbers (soup : Document) : list Z :=
  omap
    (fun attr =>
       match SnowDataScraper.extract_number attr with
       | Some n => if n =? 0 then None else Some n
       | None => None
       end)
    (data_snow_attrs soup).

(** One resort of a batch: the scraper chosen by name, run from an empty
    trace. *)
Definition resort_run (today : date) (network : string -> option Document)
  (resort : Resort) : outcome pydict * list event :=
  scrape_with (get_scraper_for_resort (name resort)) today network resort [].

(** The URLs requested for the resorts of a list, one resort after the
    other. *)
Definition runs_fetched (today : date) (network : string -> option Document)
  (resorts : list Resort) : list string :=
  flat_map (fun r => fetched (resort_run today network r).2) resorts.

(** ** Sample inputs *)

Definition a_day : date := {| year := 2025; month := 1; day := 15 |}.

Definition url_report : string := "https://resort.example/snow-report".
Definition url_site : string := "https://resort.example".

(** A resort entry with both URLs. *)
Definition two_url_resort (resort_name : string) : Resort :=
  {| name := resort_name;
     snow_report_url := Some url_report;
     website_url := Some url_site |}.

(** A web that serves the two URLs ([None]: the request fails). *)
Definition web (report site : option Document) : string -> option Document :=
  fun url =>
    if String.eqb url url_report then report
    else if String.eqb url url_site then site
    else None.

(** A page whose only content is one element of class [snow] with the given
    text, as in [<div class=snow>base: 4000cm</div>]. *)
Definition snow_div_page (t : string) : Document :=
  {| data_snow_attrs := []; meta_tags := []; snow_containers := [t];
     text_content := t; depth_elements := [] |}.

(** The page
    [<div class=base><span class=snow-depth>42</span></div>
     <p>Summit: 61in, 5/10 lifts open</p>]
    (written here on two lines): the span is found by the first Vail
    selector and by the snow-class query of the generic extractor. *)
Definition vail_page : Document :=
  {| data_snow_attrs := [];
     meta_tags := [];
     snow_containers := ["42"];
     text_content := "42Summit: 61in, 5/10 lifts open";
     depth_elements :=
       [ {| elem_text := "42";
            elem_parent := "<div class=base><span class=snow-depth>42</span></div>" |} ] |}.

(** A page with [<meta name=description content=...>] and a body text. *)
Definition meta_page (content body : string) : Document :=
  {| data_snow_attrs := [];
     meta_tags := [ {| meta_content := Some content;
                       meta_name := Some "description";
                       meta_property := None |} ];
     snow_containers := [];
     text_content := body;
     depth_elements := [] |}.

(** The keys a result dictionary can hold. *)
Definition field_names : list string :=
  ["scraped_url"; "scrape_date"; "snow_depth_base_cm"; "snow_depth_summit_cm";
   "new_snow_24h_cm"; "new_snow_48h_cm"; "new_snow_7d_cm"; "lifts_open";
   "lifts_total"; "runs_open"; "runs_total"; "temperature_base_c"].

(** [patterns[key]] *)
Definition patterns_of (key : string) : list Re.regex :=
  match List.find (fun p : string * list Re.regex => String.eqb p.1 key)
          SnowDataScraper.patterns with
  | Some p => p.2
  | None => []
  end.

Definition scenario_text : string :=
  "Base Depth: 42in, Summit: 61in, 24hr Snowfall: 8in, 5/10 lifts open".

(** Two resorts with one URL each. *)
Definition alta : Resort :=
  {| name := "Alta"; snow_report_url := Some url_site; website_url := None |}.
Definition brighton : Resort :=
  {| name := "Brighton"; snow_report_url := Some url_report; website_url := None |}.

(** [time.sleep] takes a delay from 0 to a day. *)
Definition up_to_a_day (delay : PyFloat.pynum) : bool :=
  match delay with
  | PyFloat.PyInt z => (0 <=? z) && (z <=? 86400)
  | PyFloat.PyFloat f =>
      match SFcompare (S754_zero false) f, SFcompare f (PyFloat.exact_int 86400) with
      | Some (Eq | Lt), Some (Eq | Lt) => true
      | _, _ => false
      end
  end.

(** The record of a page that reads [Base: 50in]. *)
Definition base_50_record (url : string) : pydict :=
  <["snow_depth_base_cm" := VInt 127]>
    (<["scrape_date" := VDate a_day]> (<["scraped_url" := VStr url]> ∅)).

(** The record of a page that reads [Trail status: 12/20 runs open]. *)
Definition runs_record (url : string) : pydict :=
  <["runs_total" := VInt 20]>
    (<["runs_open" := VInt 12]>
       (<["scrape_date" := VDate a_day]> (<["scraped_url" := VStr url]> ∅))).

(** [c] repeated [n] times. *)
Fixpoint repeat_char (c : ascii) (n : nat) : string :=
  match n with
  | O => EmptyString
  | S n' => String c (repeat_char c n')
  end.

(** A page that gives the base depth as a 1 followed by 309 zeros, in
    inches. *)
Definition overlong_page : Document :=
  text_only ("Base: 1" ++ repeat_char "0" 309 ++ "in")%string.

(** * Properties *)

Import PyStr Re PyFloat SnowDataScraper.

(** Closes [l = r] by evaluating both sides. *)
Ltac by_vm :=
  lazymatch goal with
  | |- @eq ?T _ ?r => vm_cast_no_check (@eq_refl T r)
  end.

(** ** The per-resort loop *)

Section LoopFacts.
Variable today : date.
Variable network : string -> option Document.

Lemma fetched_app (a b : list event) :
  fetched (a ++ b) = fetched a ++ fetched b.
Proof.
  induction a as [|[u|n] a IH]; simpl; [reflexivity| |exact IH].
  now rewrite IH.
Qed.

Lemma fetched_skip_events (urls : list string) :
  fetched (skip_events network urls) = urls.
Proof.
  induction urls as [|u urls IH]; [reflexivity|].
  unfold skip_events in *. simpl. rewrite fetched_app, IH.
  destruct (network u); reflexivity.
Qed.

Lemma try_urls_skip (l1 rest : list string) (tr : list event) :
  Forall (unproductive today network) l1 ->
  try_urls today network (l1 ++ rest) tr
  = try_urls today network rest (tr ++ skip_events network l1).
Proof.
  intros H. revert tr.
  induction H as [|u l1 Hu _ IH]; intros tr.
  - simpl. now rewrite app_nil_r.
  - cbn [app try_urls get_page].
    unfold skip_events. cbn [flat_map]. fold (skip_events network l1).
    destruct Hu as [Hnone | (soup & data & Hsoup & Hparse & Hmean)].
    + rewrite Hnone. rewrite IH. now rewrite <- app_assoc.
    + rewrite Hsoup, Hparse, Hmean. rewrite IH.
      now rewrite <- !app_assoc.
Qed.

Lemma try_urls_hit (u : string) (rest : list string) (tr : list event)
  (soup : Document) (data : pydict) :
  network u = Some soup ->
  parse_snow_report_generic today soup u = Some data ->
  meaningful data = true ->
  try_urls today network (u :: rest) tr = (Returned (Some data), tr ++ [EvFetch u]).
Proof.
  intros Hs Hp Hm. cbn [try_urls get_page]. now rewrite Hs, Hp, Hm.
Qed.

Lemma try_urls_exhausted (urls : list string) (tr : list event) :
  Forall (unproductive today network) urls ->
  try_urls today network urls tr = (Returned None, tr ++ skip_events network urls).
Proof.
  intros H. rewrite <- (app_nil_r urls) at 1.
  now rewrite try_urls_skip.
Qed.

(** [meaningful] holds exactly when one of the five fields is present with
    a true (non-zero) value. *)
Lemma meaningful_spec (data : pydict) :
  meaningful data = true <->
  ∃ k v, k ∈ meaningful_fields ∧ data !! k = Some v ∧ truthy v = true.
Proof.
  unfold meaningful. split.
  - intros H. apply andb_true_iff in H as [_ H].
    apply existsb_exists in H as (k & Hin & Hk).
    unfold get_truthy in Hk. destruct (data !! k) as [v|] eqn:E; [|discriminate].
    exists k, v. split; [|split]; try assumption.
    now apply list_elem_of_In.
  - intros (k & v & Hin & Hk & Hv). apply andb_true_iff. split.
    + apply negb_true_iff, bool_decide_eq_false. intros ->.
      rewrite lookup_empty in Hk. discriminate.
    + apply existsb_exists. exists k. split; [now apply list_elem_of_In|].
      unfold get_truthy. now rewrite Hk.
Qed.

End LoopFacts.

(** The URL stored in the minimal record is the first candidate. *)
Lemma py_or_first_candidate (resort_data : Resort) :
  val_of_str (py_or (snow_report_url resort_data) (website_url resort_data))
  = match urls_to_try resort_data with
    | u :: _ => VStr u
    | [] => val_of_str (website_url resort_data)
    end.
Proof.
  unfold py_or, urls_to_try.
  destruct (snow_report_url resort_data) as [s|]; simpl.
  - destruct (String.eqb s ""); simpl; [|reflexivity].
    destruct (website_url resort_data) as [w|]; simpl; [|reflexivity].
    now destruct (String.eqb w "").
  - destruct (website_url resort_data) as [w|]; simpl; [|reflexivity].
    now destruct (String.eqb w "").
Qed.

(** C4 (amended).  The generic per-resort loop returns the record of the
    first candidate URL whose page is fetched and whose extraction has one of
    base depth, summit depth, 24-hour snowfall, lifts open, runs open present
    with a true (non-zero) value; the URLs requested are the candidates up to
    and including that one, so no later candidate is fetched. *)
Theorem C4_first_meaningful_candidate (today : date)
  (network : string -> option Document) (resort_data : Resort) (tr : list event)
  (l1 l2 : list string) (u : string) (soup : Document) (data : pydict) :
  urls_to_try resort_data = l1 ++ u :: l2 ->
  Forall (unproductive today network) l1 ->
  network u = Some soup ->
  parse_snow_report_generic today soup u = Some data ->
  (∃ k v, k ∈ meaningful_fields ∧ data !! k = Some v ∧ truthy v = true) ->
  ∃ tr', SnowDataScraper.scrape_resort today network resort_data tr = (Returned data, tr')
         ∧ fetched tr' = fetched tr ++ l1 ++ [u].
Proof.
  intros Hurls Hskip Hsoup Hparse Hmean.
  apply meaningful_spec in Hmean.
  unfold SnowDataScraper.scrape_resort. rewrite Hurls.
  rewrite (try_urls_skip today network l1 (u :: l2) tr Hskip).
  rewrite (try_urls_hit today network u l2 _ soup data Hsoup Hparse Hmean).
  eexists. split; [reflexivity|].
  rewrite !fetched_app, fetched_skip_events. simpl. now rewrite <- app_assoc.
Qed.

(** C5 (amended).  When every candidate URL is exhausted, the generic loop
    returns a record with exactly two keys: the capture date and
    [scraped_url], which holds the first candidate (the snow-report URL when
    it is set, otherwise the website URL); every measurement field is
    absent.  All candidates have been requested. *)
Theorem C5_exhausted_minimal_record (today : date)
  (network : string -> option Document) (resort_data : Resort) (tr : list event) :
  Forall (unproductive today network) (urls_to_try resort_data) ->
  ∃ tr',
    SnowDataScraper.scrape_resort today network resort_data tr
    = (Returned
         (<["scrape_date" := VDate today]>
            (<["scraped_url" :=
                 match urls_to_try resort_data with
                 | u :: _ => VStr u
                 | [] => val_of_str (website_url resort_data)
                 end]> ∅)),
       tr')
    ∧ fetched tr' = fetched tr ++ urls_to_try resort_data.
Proof.
  intros H. unfold SnowDataScraper.scrape_resort.
  rewrite (try_urls_exhausted today network _ tr H).
  rewrite py_or_first_candidate.
  eexists. split; [reflexivity|].
  now rewrite fetched_app, fetched_skip_events.
Qed.

(** C9.  For a resort of the Vail family, when no URL is configured or the
    one chosen URL (the snow-report URL, else the website URL) cannot be
    fetched, the specialized scraper returns the empty dictionary, without
    source URL or capture date, and requests nothing beyond that one URL. *)
Theorem C9_vail_failure_returns_empty (today : date)
  (network : string -> option Document) (resort_data : Resort) (tr : list event) :
  get_scraper_for_resort (name resort_data) = VailScraper ->
  str_truthy (py_or (snow_report_url resort_data) (website_url resort_data)) = false
  ∨ network (default "" (py_or (snow_report_url resort_data) (website_url resort_data)))
    = None ->
  scrape_with (get_scraper_for_resort (name resort_data)) today network resort_data tr
  = (Returned ∅,
     tr ++ (if str_truthy (py_or (snow_report_url resort_data) (website_url resort_data))
            then [EvFetch (default "" (py_or (snow_report_url resort_data)
                                             (website_url resort_data)))]
            else [])).
Proof.
  intros Hfam Hfail. rewrite Hfam. unfold scrape_with, VailResortsScraper.scrape_resort.
  destruct (str_truthy (py_or _ _)) eqn:E; simpl.
  - destruct Hfail as [Hf|Hf]; [discriminate|].
    unfold get_page. now rewrite Hf.
  - now rewrite app_nil_r.
Qed.

(** The spec's scenario: the first fetch fails, the second page reads
    [Trail status: 12/20 runs open]. *)
Lemma C4_first_meaningful_candidate_witness :
  ∃ tr',
    SnowDataScraper.scrape_resort a_day
      (web None (Some (text_only "Trail status: 12/20 runs open")))
      (two_url_resort "Alta") []
    = (Returned
         (<["runs_total" := VInt 20]>
            (<["runs_open" := VInt 12]>
               (<["scrape_date" := VDate a_day]>
                  (<["scraped_url" := VStr url_site]> ∅)))),
       tr')
    ∧ fetched tr' = fetched [] ++ [url_report] ++ [url_site].
Proof.
  apply (C4_first_meaningful_candidate a_day _ (two_url_resort "Alta") []
           [url_report] [] url_site
           (text_only "Trail status: 12/20 runs open")).
  - reflexivity.
  - constructor; [left; reflexivity | constructor].
  - reflexivity.
  - by_vm.
  - exists "runs_open", (VInt 12). split; [|split].
    + apply list_elem_of_In. simpl. tauto.
    + by_vm.
    + reflexivity.
Defined.

(** C4, as stated, fails: the first page reads [0/10 lifts open], so its
    record has [lifts_open] present (with value 0); the loop still goes on
    to the second URL and returns that page's record. *)
Lemma C4_counterexample :
  ∃ r1 r2 tr,
    parse_snow_report_generic a_day (text_only "0/10 lifts open") url_report = Some r1
    ∧ r1 !! "lifts_open" = Some (VInt 0)
    ∧ SnowDataScraper.scrape_resort a_day
        (web (Some (text_only "0/10 lifts open")) (Some (text_only "Base: 50in")))
        (two_url_resort "Alta") []
      = (Returned r2, tr)
    ∧ r2 ≠ r1
    ∧ fetched tr = [url_report; url_site].
Proof.
  exists (<["lifts_total" := VInt 10]>
            (<["lifts_open" := VInt 0]>
               (<["scrape_date" := VDate a_day]>
                  (<["scraped_url" := VStr url_report]> ∅)))),
         (<["snow_depth_base_cm" := VInt 127]>
            (<["scrape_date" := VDate a_day]> (<["scraped_url" := VStr url_site]> ∅))),
         [EvFetch url_report; EvSleep 1; EvFetch url_site].
  split; [by_vm|]. split; [by_vm|]. split; [by_vm|]. split; [|reflexivity].
  intros H.
  assert ((<["snow_depth_base_cm" := VInt 127]>
             (<["scrape_date" := VDate a_day]>
                (<["scraped_url" := VStr url_site]> (∅ : pydict))))
            !! "lifts_open" = None) as E by by_vm.
  rewrite H in E. revert E. vm_compute. discriminate.
Qed.

Lemma C5_exhausted_minimal_record_witness :
  ∃ tr',
    SnowDataScraper.scrape_resort a_day
      (web None (Some (text_only "Welcome to the mountain")))
      (two_url_resort "Alta") []
    = (Returned
         (<["scrape_date" := VDate a_day]> (<["scraped_url" := VStr url_report]> ∅)),
       tr')
    ∧ fetched tr' = fetched [] ++ [url_report; url_site].
Proof.
  apply (C5_exhausted_minimal_record a_day
           (web None (Some (text_only "Welcome to the mountain")))
           (two_url_resort "Alta") []).
  constructor; [left; reflexivity|].
  constructor; [|constructor].
  right.
  exists (text_only "Welcome to the mountain"),
         (<["scrape_date" := VDate a_day]> (<["scraped_url" := VStr url_site]> ∅)).
  split; [reflexivity|]. split; by_vm.
Defined.

(** C5, as stated, fails: with two candidates that both fail, the last URL
    tried is the website URL, but the record carries the snow-report URL. *)
Lemma C5_counterexample :
  ∃ r tr,
    SnowDataScraper.scrape_resort a_day (web None None) (two_url_resort "Alta") []
    = (Returned r, tr)
    ∧ last (fetched tr) = Some url_site
    ∧ r !! "scraped_url" = Some (VStr url_report)
    ∧ url_report ≠ url_site.
Proof.
  exists (<["scrape_date" := VDate a_day]> (<["scraped_url" := VStr url_report]> ∅)),
         [EvFetch url_report; EvFetch url_site].
  split; [by_vm|]. split; [reflexivity|]. split; [by_vm|]. discriminate.
Qed.

(** Vail's snow-report URL fails; the website URL would answer, but is not
    requested. *)
Lemma C9_vail_failure_returns_empty_witness :
  scrape_with (get_scraper_for_resort "Vail") a_day
    (web None (Some (text_only "Base: 50in"))) (two_url_resort "Vail") []
  = (Returned ∅, [EvFetch url_report]).
Proof.
  apply (C9_vail_failure_returns_empty a_day
           (web None (Some (text_only "Base: 50in"))) (two_url_resort "Vail") []).
  - reflexivity.
  - right. reflexivity.
Defined.

(** ** Which keys each strategy writes *)

Lemma for_each_invariant {S X : Type} (I : S -> Prop) (body : S -> X -> option S) :
  (forall st x st', I st -> body st x = Some st' -> I st') ->
  forall xs st st', I st -> for_each body xs st = Some st' -> I st'.
Proof.
  intros Hbody xs. induction xs as [|x xs IH]; intros st st' Hst H; simpl in H.
  - now inversion H; subst.
  - destruct (body st x) as [st1|] eqn:E; simpl in H; [|discriminate].
    eapply IH; [|exact H]. eapply Hbody; eauto.
Qed.

Lemma find_json_data_frame (soup : Document) (k : string) :
  k ≠ "new_snow_24h_cm" -> find_json_data soup !! k = None.
Proof.
  intros Hk. unfold find_json_data.
  assert (forall l (acc : pydict), acc !! k = None ->
            fold_left
              (fun data attr =>
                 match extract_number attr with
                 | Some snow_val =>
                     if negb (snow_val =? 0)
                     then <["new_snow_24h_cm" := VInt snow_val]> data
                     else data
                 | None => data
                 end) l acc !! k = None) as H.
  { induction l as [|a l IH]; intros acc Hacc; simpl; [exact Hacc|].
    apply IH. destruct (extract_number a) as [v|]; [|exact Hacc].
    destruct (negb (v =? 0)); [|exact Hacc].
    rewrite lookup_insert_ne by congruence. exact Hacc. }
  apply H, lookup_empty.
Qed.

Lemma meta_step_frame (data data' : pydict) (meta : Meta) (k : string) :
  k ≠ "snow_depth_base_cm" -> k ≠ "new_snow_24h_cm" ->
  meta_step data meta = Some data' -> data' !! k = data !! k.
Proof.
  intros Hb Hn H. unfold meta_step in H.
  repeat match type of H with
  | Some _ = Some _ => inversion H; subst; clear H
  | (if ?c then _ else _) = Some _ => destruct c
  | match ?x with _ => _ end = Some _ => destruct x; simpl in H; try discriminate
  | (_ ≫= _) = Some _ => apply bind_Some in H as (? & _ & H)
  end; try reflexivity; now rewrite lookup_insert_ne by congruence.
Qed.

Lemma extract_from_meta_tags_frame (soup : Document) (meta_data : pydict) (k : string) :
  k ≠ "snow_depth_base_cm" -> k ≠ "new_snow_24h_cm" ->
  extract_from_meta_tags soup = Some meta_data -> meta_data !! k = None.
Proof.
  intros Hb Hn H. unfold extract_from_meta_tags in H.
  eapply (for_each_invariant (fun d : pydict => d !! k = None)); [| |exact H].
  - intros st x st' Hst Hstep. now rewrite (meta_step_frame _ _ _ k Hb Hn Hstep).
  - apply lookup_empty.
Qed.

Lemma container_field_frame (keyword : regex) (key text : string)
  (data data' : pydict) (k : string) :
  k ≠ key -> container_field keyword key text data = Some data' ->
  data' !! k = data !! k.
Proof.
  intros Hk H. unfold container_field in H.
  repeat match type of H with
  | Some _ = Some _ => inversion H; subst; clear H
  | (if ?c then _ else _) = Some _ => destruct c
  | match ?x with _ => _ end = Some _ => destruct x; simpl in H; try discriminate
  | (_ ≫= _) = Some _ => apply bind_Some in H as (? & _ & H)
  end; try reflexivity; now rewrite lookup_insert_ne by congruence.
Qed.

Lemma container_step_frame (data data' : pydict) (container : string) (k : string) :
  k ≠ "snow_depth_base_cm" -> k ≠ "snow_depth_summit_cm" ->
  container_step data container = Some data' -> data' !! k = data !! k.
Proof.
  intros Hb Hs H. unfold container_step in H.
  apply bind_Some in H as (d1 & H1 & H2).
  rewrite (container_field_frame _ _ _ _ _ k Hs H2).
  exact (container_field_frame _ _ _ _ _ k Hb H1).
Qed.

(** The first three strategies write only the two bookkeeping keys, the
    24-hour snowfall and the two depths. *)
Lemma early_strategies_frame (today : date) (soup : Document) (url : string)
  (data : pydict) (k : string) :
  k ≠ "scraped_url" -> k ≠ "scrape_date" -> k ≠ "new_snow_24h_cm" ->
  k ≠ "snow_depth_base_cm" -> k ≠ "snow_depth_summit_cm" ->
  early_strategies today soup url = Some data -> data !! k = None.
Proof.
  intros Hu Hd Hn Hb Hs H. unfold early_strategies in H.
  apply bind_Some in H as (meta_data & Hmeta & H).
  eapply (for_each_invariant (fun d : pydict => d !! k = None)); [| |exact H].
  - intros st x st' Hst Hstep. now rewrite (container_step_frame _ _ _ k Hb Hs Hstep).
  - unfold dict_update. rewrite !lookup_union.
    rewrite (extract_from_meta_tags_frame _ _ k Hb Hn Hmeta).
    rewrite (find_json_data_frame _ k Hn).
    rewrite !lookup_insert_ne by congruence. now rewrite lookup_empty.
Qed.

(** ** The full-text strategy stores only values within bounds *)

Lemma sane_step_refl (d : pydict) : sane_step d d.
Proof. intros k. now left. Qed.

Lemma sane_step_trans (d0 d1 d2 : pydict) :
  sane_step d0 d1 -> sane_step d1 d2 -> sane_step d0 d2.
Proof.
  intros H01 H12 k. destruct (H12 k) as [E|Hv]; [|now right].
  rewrite E. apply H01.
Qed.

Lemma assign_field_sane (key : string) (value : Z) (data : pydict) :
  key_in key ["base_depth"; "summit_depth"] && ((value <? 5) || (value >? 1000)) = false ->
  key_in key ["24h_snow"; "48h_snow"; "7d_snow"] && (value >? 300) = false ->
  sane_step data (assign_field key value data).
Proof.
  intros Hd Hs k. unfold assign_field.
  repeat match goal with
  | |- context [String.eqb key ?c] =>
      let E := fresh "E" in
      destruct (String.eqb key c) eqn:E;
      [apply String.eqb_eq in E; subst key|]
  end; try (now left);
  match goal with
  | |- context [<[?f := _]> _] =>
      destruct (decide (k = f)) as [->|Hne];
      [right; exists value; rewrite lookup_insert_eq; split; [reflexivity|]
      |left; now rewrite lookup_insert_ne by congruence]
  end;
  simpl in Hd, Hs; unfold within_bounds, depth_fields, snowfall_fields.
  - left. split; [set_solver|lia].
  - left. split; [set_solver|lia].
  - right. split; [set_solver|lia].
  - right. split; [set_solver|lia].
  - right. split; [set_solver|lia].
Qed.

Lemma try_matches_sane (key : string) (is_inches : bool) (matches : list Match)
  (data data' : pydict) :
  try_matches key is_inches data matches = Some data' -> sane_step data data'.
Proof.
  induction matches as [|m rest IH]; cbn [try_matches]; intros H.
  - inversion H. apply sane_step_refl.
  - destruct (group m 1 ≫= _) as [value|]; [|now apply IH].
    apply bind_Some in H as (v & _ & H).
    destruct (key_in key ["base_depth"; "summit_depth"] && ((v <? 5) || (v >? 1000)))
      eqn:Hd; [now apply IH|].
    destruct (key_in key ["24h_snow"; "48h_snow"; "7d_snow"] && (v >? 300))
      eqn:Hs; [now apply IH|].
    inversion H. now apply assign_field_sane.
Qed.

Lemma try_patterns_sane (key : string) (is_inches : bool) (text : string)
  (pattern_list : list regex) (data data' : pydict) :
  try_patterns key is_inches text data pattern_list = Some data' ->
  sane_step data data'.
Proof.
  revert data. induction pattern_list as [|p rest IH]; simpl; intros data H.
  - inversion H. apply sane_step_refl.
  - apply bind_Some in H as (d1 & H1 & H).
    apply try_matches_sane in H1.
    destruct (get_truthy d1 (found_key key)).
    + now inversion H; subst.
    + eapply sane_step_trans; [exact H1|]. now apply IH.
Qed.

Lemma full_text_search_sane (text : string) (data data' : pydict) :
  full_text_search text data = Some data' -> sane_step data data'.
Proof.
  unfold full_text_search. intros H.
  eapply (for_each_invariant (sane_step data)); [| |exact H].
  - intros st [key pattern_list] st' Hst Hstep.
    destruct (get_truthy st (found_key key)).
    + now inversion Hstep; subst.
    + eapply sane_step_trans; [exact Hst|]. eapply try_patterns_sane, Hstep.
  - apply sane_step_refl.
Qed.

(** ** The lift, run and temperature blocks *)

Lemma ratio_status_cases (pattern : regex) (open_key total_key text : string)
  (data data' : pydict) :
  ratio_status pattern open_key total_key text data = Some data' ->
  data' = data
  ∨ ∃ n1 n2, data' = <[total_key := VInt n2]> (<[open_key := VInt n1]> data).
Proof.
  unfold ratio_status. intros H.
  destruct (search true pattern text) as [m|]; [|left; now inversion H].
  apply bind_Some in H as (s1 & _ & H). apply bind_Some in H as (n1 & _ & H).
  apply bind_Some in H as (s2 & _ & H). apply bind_Some in H as (n2 & _ & H).
  right. exists n1, n2. now inversion H.
Qed.

Lemma temperature_search_cases (text : string) (pats : list regex)
  (data data' : pydict) :
  temperature_search text data pats = Some data' ->
  data' = data ∨ ∃ t, data' = <["temperature_base_c" := VFloat t]> data.
Proof.
  induction pats as [|p rest IH]; simpl; intros H.
  - left. now inversion H.
  - destruct (search false p text) as [m|]; [|now apply IH].
    apply bind_Some in H as (t & _ & H). right. exists t. now inversion H.
Qed.

Lemma ratio_status_frame (pattern : regex) (open_key total_key text : string)
  (data data' : pydict) (k : string) :
  k ≠ open_key -> k ≠ total_key ->
  ratio_status pattern open_key total_key text data = Some data' ->
  data' !! k = data !! k.
Proof.
  intros Ho Ht H. apply ratio_status_cases in H as [->|(n1 & n2 & ->)]; [reflexivity|].
  now rewrite !lookup_insert_ne by congruence.
Qed.

Lemma temperature_search_frame (text : string) (pats : list regex)
  (data data' : pydict) (k : string) :
  k ≠ "temperature_base_c" ->
  temperature_search text data pats = Some data' -> data' !! k = data !! k.
Proof.
  intros Hk H. apply temperature_search_cases in H as [->|(t & ->)]; [reflexivity|].
  now rewrite lookup_insert_ne by congruence.
Qed.

(** ** Sanity bounds of the generic extractor *)

Ltac split_elem H :=
  repeat (apply elem_of_cons in H as [H|H]; [try subst|]);
  try (apply elem_of_nil in H; contradiction).

Lemma sane_step_other (d0 d : pydict) (k : string) :
  sane_step d0 d -> k ∉ depth_fields -> k ∉ snowfall_fields -> d !! k = d0 !! k.
Proof.
  intros H Hd Hs. destruct (H k) as [E|(v & _ & [[Hin _]|[Hin _]])]; [exact E| |];
    contradiction.
Qed.

(** The lift, run and temperature blocks leave the depth and snowfall fields
    alone. *)
Lemma late_blocks_frame (text : string) (d1 d2 d3 data : pydict) (k : string) :
  k ∈ depth_fields ++ snowfall_fields ->
  ratio_status re_lifts "lifts_open" "lifts_total" text d1 = Some d2 ->
  ratio_status re_runs "runs_open" "runs_total" text d2 = Some d3 ->
  temperature_search text d3 temp_patterns = Some data ->
  data !! k = d1 !! k.
Proof.
  intros Hk H2 H3 H4. unfold depth_fields, snowfall_fields in Hk. simpl in Hk.
  split_elem Hk;
    (etrans; [eapply temperature_search_frame; [|exact H4]; discriminate|];
     etrans; [eapply ratio_status_frame; [| |exact H3]; discriminate|];
     eapply ratio_status_frame; [| |exact H2]; discriminate).
Qed.

(** C1 (amended).  There is no second pass over the record.  The bound of a
    field is applied where the full-text strategy stores a value, so in the
    record returned by the generic extractor each depth or snowfall field
    either still holds what the first three strategies left there
    (unchecked), or holds a value within its bound: depths in [5, 1000] cm,
    snowfall windows at most 300 cm.  The 48-hour and 7-day snowfall, which
    only the full-text strategy sets, are absent or within bound; so is every
    depth and snowfall field of a page without [data-snow] attributes, meta
    tags and snow-class elements. *)
Theorem C1_bounds_of_generic_record (today : date) (soup : Document) (url : string)
  (early data : pydict) :
  early_strategies today soup url = Some early ->
  parse_snow_report_generic today soup url = Some data ->
  (∀ k, k ∈ depth_fields ++ snowfall_fields ->
        data !! k = early !! k
        ∨ ∃ v, data !! k = Some (VInt v) ∧ within_bounds k v)
  ∧ (∀ k, k ∈ ["new_snow_48h_cm"; "new_snow_7d_cm"] ->
          data !! k = None ∨ ∃ v, data !! k = Some (VInt v) ∧ within_bounds k v)
  ∧ (data_snow_attrs soup = [] -> meta_tags soup = [] -> snow_containers soup = [] ->
     ∀ k, k ∈ depth_fields ++ snowfall_fields ->
          data !! k = None ∨ ∃ v, data !! k = Some (VInt v) ∧ within_bounds k v).
Proof.
  intros Hearly H. unfold parse_snow_report_generic in H. rewrite Hearly in H.
  simpl in H.
  apply bind_Some in H as (d1 & H1 & H). apply bind_Some in H as (d2 & H2 & H).
  apply bind_Some in H as (d3 & H3 & H4).
  apply full_text_search_sane in H1.
  assert (∀ k, k ∈ depth_fields ++ snowfall_fields ->
            data !! k = early !! k
            ∨ ∃ v, data !! k = Some (VInt v) ∧ within_bounds k v) as Hmain.
  { intros k Hk. rewrite (late_blocks_frame _ _ _ _ _ k Hk H2 H3 H4). apply H1. }
  split; [exact Hmain|]. split.
  - intros k Hk.
    assert (early !! k = None) as E.
    { split_elem Hk;
        (eapply early_strategies_frame; [..|exact Hearly]; discriminate). }
    rewrite <- E. apply Hmain.
    unfold depth_fields, snowfall_fields. simpl. split_elem Hk; repeat constructor.
  - intros Ha Hm Hc k Hk.
    assert (early !! k = None) as E.
    { unfold early_strategies, extract_from_meta_tags, find_json_data in Hearly.
      rewrite Ha, Hm, Hc in Hearly. simpl in Hearly. inversion Hearly.
      unfold dict_update. rewrite !lookup_union, !lookup_empty.
      unfold depth_fields, snowfall_fields in Hk. simpl in Hk.
      split_elem Hk; now rewrite !lookup_insert_ne by discriminate. }
    rewrite <- E. now apply Hmain.
Qed.

(** The page [Base: 50cm  New snow 24h: 400cm]: the base depth is set by the
    full-text strategy and is within bounds. *)
Lemma C1_bounds_of_generic_record_witness :
  (<["new_snow_24h_cm" := VInt 50]>
     (<["snow_depth_base_cm" := VInt 50]>
        (<["scrape_date" := VDate a_day]>
           (<["scraped_url" := VStr url_report]> (∅ : pydict)))))
    !! "snow_depth_base_cm"
  = (<["scrape_date" := VDate a_day]> (<["scraped_url" := VStr url_report]> (∅ : pydict)))
      !! "snow_depth_base_cm"
  ∨ ∃ v, (<["new_snow_24h_cm" := VInt 50]>
            (<["snow_depth_base_cm" := VInt 50]>
               (<["scrape_date" := VDate a_day]>
                  (<["scraped_url" := VStr url_report]> (∅ : pydict)))))
           !! "snow_depth_base_cm" = Some (VInt v)
         ∧ within_bounds "snow_depth_base_cm" v.
Proof.
  refine (proj1 (C1_bounds_of_generic_record a_day
                   (text_only "Base: 50cm  New snow 24h: 400cm") url_report
                   (<["scrape_date" := VDate a_day]>
                      (<["scraped_url" := VStr url_report]> ∅))
                   (<["new_snow_24h_cm" := VInt 50]>
                      (<["snow_depth_base_cm" := VInt 50]>
                         (<["scrape_date" := VDate a_day]>
                            (<["scraped_url" := VStr url_report]> ∅))))
                   _ _) "snow_depth_base_cm" _).
  - by_vm.
  - by_vm.
  - repeat constructor.
Defined.

(** C1, as stated, fails: on the page [<div class=snow>base: 4000cm</div>]
    the class-heuristic strategy stores a base depth of 4000 cm, the
    full-text strategy rejects its own reading of the same text, and the
    record is returned with the out-of-bound value. *)
Lemma C1_counterexample :
  ∃ data,
    parse_snow_report_generic a_day (snow_div_page "base: 4000cm") url_report
    = Some data
    ∧ data !! "snow_depth_base_cm" = Some (VInt 4000)
    ∧ ¬ within_bounds "snow_depth_base_cm" 4000.
Proof.
  exists (<["snow_depth_base_cm" := VInt 4000]>
            (<["scrape_date" := VDate a_day]>
               (<["scraped_url" := VStr url_report]> ∅))).
  split; [by_vm|]. split; [by_vm|].
  intros [[_ H]|[H _]]; [lia|].
  unfold snowfall_fields in H. split_elem H; discriminate.
Qed.

(** ** Lift and run counts *)

Lemma paired_insert_other (d : pydict) (a b k : string) (v : pyval) :
  k ≠ a -> k ≠ b -> paired d a b -> paired (<[k := v]> d) a b.
Proof.
  intros Ha Hb H. unfold paired. now rewrite !lookup_insert_ne by congruence.
Qed.

Lemma paired_set (d : pydict) (a b : string) (x y : Z) :
  a ≠ b -> paired (<[b := VInt y]> (<[a := VInt x]> d)) a b.
Proof.
  intros Hab. right. exists x, y.
  rewrite lookup_insert_ne by congruence. now rewrite !lookup_insert_eq.
Qed.

(** The generic extractor sets the two halves of a ratio together. *)
Lemma parse_paired (today : date) (soup : Document) (url : string) (data : pydict) :
  parse_snow_report_generic today soup url = Some data ->
  paired data "lifts_open" "lifts_total" ∧ paired data "runs_open" "runs_total".
Proof.
  intros H. unfold parse_snow_report_generic in H.
  apply bind_Some in H as (d0 & H0 & H). apply bind_Some in H as (d1 & H1 & H).
  apply bind_Some in H as (d2 & H2 & H). apply bind_Some in H as (d3 & H3 & H4).
  apply full_text_search_sane in H1.
  assert (∀ k, k ∈ ["lifts_open"; "lifts_total"; "runs_open"; "runs_total"] ->
               d1 !! k = None) as Hnone.
  { intros k Hk. rewrite (sane_step_other d0 d1 k H1).
    - split_elem Hk; (eapply early_strategies_frame; [..|exact H0]; discriminate).
    - intros Hin. unfold depth_fields in Hin. split_elem Hk; split_elem Hin; discriminate.
    - intros Hin. unfold snowfall_fields in Hin.
      split_elem Hk; split_elem Hin; discriminate. }
  assert (paired d2 "lifts_open" "lifts_total" ∧ paired d2 "runs_open" "runs_total")
    as [Hl2 Hr2].
  { apply ratio_status_cases in H2 as [->|(n1 & n2 & ->)].
    - split; left; split; apply Hnone; repeat constructor.
    - split; [apply paired_set; discriminate|].
      do 2 (apply paired_insert_other; [discriminate..|]).
      left; split; apply Hnone; repeat constructor. }
  assert (paired d3 "lifts_open" "lifts_total" ∧ paired d3 "runs_open" "runs_total")
    as [Hl3 Hr3].
  { apply ratio_status_cases in H3 as [->|(n1 & n2 & ->)]; [now split|].
    split; [now do 2 (apply paired_insert_other; [discriminate..|])|].
    apply paired_set; discriminate. }
  apply temperature_search_cases in H4 as [->|(t & ->)]; [now split|].
  split; now apply paired_insert_other.
Qed.

Lemma try_urls_returns_parse (today : date) (network : string -> option Document)
  (urls : list string) (tr tr' : list event) (data : pydict) :
  try_urls today network urls tr = (Returned (Some data), tr') ->
  ∃ soup url, parse_snow_report_generic today soup url = Some data.
Proof.
  revert tr. induction urls as [|u urls IH]; intros tr H; cbn [try_urls get_page] in H.
  - discriminate.
  - destruct (network u) as [soup|]; [|now apply IH in H].
    destruct (parse_snow_report_generic today soup u) as [d|] eqn:E; [|discriminate].
    destruct (meaningful d); [|now apply IH in H].
    inversion H; subst. now exists soup, u.
Qed.

(** ** The Vail pass and its fallback *)

Lemma depth_step_frame (data data' : pydict) (elem : DepthElem) (k : string) :
  k ≠ "snow_depth_base_cm" -> k ≠ "snow_depth_summit_cm" ->
  VailResortsScraper.depth_step data elem = Some data' -> data' !! k = data !! k.
Proof.
  intros Hb Hs H. unfold VailResortsScraper.depth_step in H.
  repeat match type of H with
  | Some _ = Some _ => inversion H; subst; clear H
  | (if ?c then _ else _) = Some _ => destruct c
  | match ?x with _ => _ end = Some _ => destruct x; simpl in H; try discriminate
  | (_ ≫= _) = Some _ => apply bind_Some in H as (? & _ & H)
  end; try reflexivity; now rewrite lookup_insert_ne by congruence.
Qed.

Lemma depth_loop_frame (elems : list DepthElem) (data : pydict) (k : string) :
  k ≠ "snow_depth_base_cm" -> k ≠ "snow_depth_summit_cm" ->
  VailResortsScraper.depth_loop data elems !! k = data !! k.
Proof.
  intros Hb Hs. revert data. induction elems as [|e elems IH]; intros data; simpl.
  - reflexivity.
  - destruct (VailResortsScraper.depth_step data e) as [d'|] eqn:E; [|reflexivity].
    rewrite IH. now apply (depth_step_frame _ _ e).
Qed.

(** What the fallback merge leaves under each key: the value of the Vail
    pass when it is true, otherwise the generic value when there is one. *)
Lemma fallback_lookup (data generic_data : pydict) (k : string) :
  dict_update data (VailResortsScraper.fallback_items data generic_data) !! k
  = if get_truthy data k then data !! k
    else match generic_data !! k with
         | Some v => Some v
         | None => data !! k
         end.
Proof.
  unfold dict_update, VailResortsScraper.fallback_items.
  rewrite lookup_union, map_lookup_filter.
  destruct (generic_data !! k) as [v|] eqn:Eg; simpl.
  - destruct (get_truthy data k) eqn:Et.
    + rewrite option_guard_False by (simpl; congruence). simpl.
      now destruct (data !! k).
    + rewrite option_guard_True by (simpl; congruence). simpl.
      now destruct (data !! k).
  - destruct (get_truthy data k); now destruct (data !! k).
Qed.

Lemma paired_ext (d d' : pydict) (a b : string) :
  d' !! a = d !! a -> d' !! b = d !! b -> paired d a b -> paired d' a b.
Proof. unfold paired. now intros -> ->. Qed.

Lemma specialized_pass_frame (today : date) (soup : Document) (url k : string) :
  k ≠ "scraped_url" -> k ≠ "scrape_date" ->
  k ≠ "snow_depth_base_cm" -> k ≠ "snow_depth_summit_cm" ->
  VailResortsScraper.specialized_pass today soup url !! k = None.
Proof.
  intros Hu Hd Hb Hs. unfold VailResortsScraper.specialized_pass.
  rewrite depth_loop_frame by assumption.
  now rewrite !lookup_insert_ne by congruence.
Qed.

Lemma fallback_absent (today : date) (soup : Document) (url k : string)
  (generic_data : pydict) :
  k ≠ "scraped_url" -> k ≠ "scrape_date" ->
  k ≠ "snow_depth_base_cm" -> k ≠ "snow_depth_summit_cm" ->
  dict_update (VailResortsScraper.specialized_pass today soup url)
    (VailResortsScraper.fallback_items
       (VailResortsScraper.specialized_pass today soup url) generic_data) !! k
  = generic_data !! k.
Proof.
  intros Hu Hd Hb Hs. rewrite fallback_lookup. unfold get_truthy.
  rewrite (specialized_pass_frame today soup url k Hu Hd Hb Hs).
  now destruct (generic_data !! k).
Qed.

(** C7 (amended).  In every record returned by either scraper, [lifts_open]
    and [lifts_total] are both present or both absent, and so are
    [runs_open] and [runs_total]: the two captured numbers of a ratio are
    stored together.  Nothing relates the open count to the total. *)
Theorem C7_ratio_fields_paired (s : scraper) (today : date)
  (network : string -> option Document) (resort_data : Resort)
  (tr tr' : list event) (data : pydict) :
  scrape_with s today network resort_data tr = (Returned data, tr') ->
  paired data "lifts_open" "lifts_total" ∧ paired data "runs_open" "runs_total".
Proof.
  intros H. destruct s; unfold scrape_with in H.
  - unfold SnowDataScraper.scrape_resort in H.
    destruct (try_urls today network (urls_to_try resort_data) tr)
      as [[[d|]|] tr1] eqn:E; inversion H; subst.
    + apply try_urls_returns_parse in E as (soup & url & E).
      exact (parse_paired _ _ _ _ E).
    + split; left; split; now rewrite !lookup_insert_ne by discriminate.
  - unfold VailResortsScraper.scrape_resort in H.
    destruct (negb (str_truthy (py_or _ _))).
    { inversion H; subst. split; left; split; apply lookup_empty. }
    unfold get_page in H.
    destruct (network _) as [soup|].
    2: { inversion H; subst. split; left; split; apply lookup_empty. }
    destruct (negb (get_truthy _ "snow_depth_base_cm")).
    + destruct (parse_snow_report_generic today soup _) as [g|] eqn:E; [|discriminate].
      inversion H; subst. destruct (parse_paired _ _ _ _ E) as [Hl Hr].
      split; (eapply paired_ext; [| |eassumption]);
        apply fallback_absent; discriminate.
    + inversion H; subst.
      split; left; split; apply specialized_pass_frame; discriminate.
Qed.

Lemma C7_ratio_fields_paired_witness :
  paired
    (<["runs_total" := VInt 20]>
       (<["runs_open" := VInt 12]>
          (<["scrape_date" := VDate a_day]>
             (<["scraped_url" := VStr url_site]> (∅ : pydict)))))
    "lifts_open" "lifts_total"
  ∧ paired
      (<["runs_total" := VInt 20]>
         (<["runs_open" := VInt 12]>
            (<["scrape_date" := VDate a_day]>
               (<["scraped_url" := VStr url_site]> (∅ : pydict)))))
      "runs_open" "runs_total".
Proof.
  apply (C7_ratio_fields_paired GenericScraper a_day
           (web None (Some (text_only "Trail status: 12/20 runs open")))
           (two_url_resort "Alta") [] [EvFetch url_report; EvFetch url_site]).
  by_vm.
Defined.

(** C7, as stated, fails in its second half: on a page that reads
    [Buy online 24/7 lift tickets] the extractor stores 24 lifts open out of
    a total of 7. *)
Lemma C7_counterexample :
  ∃ data,
    parse_snow_report_generic a_day (text_only "Buy online 24/7 lift tickets") url_report
    = Some data
    ∧ data !! "lifts_open" = Some (VInt 24)
    ∧ data !! "lifts_total" = Some (VInt 7)
    ∧ ¬ (24 <= 7).
Proof.
  exists (<["lifts_total" := VInt 7]>
            (<["lifts_open" := VInt 24]>
               (<["scrape_date" := VDate a_day]>
                  (<["scraped_url" := VStr url_report]> ∅)))).
  split; [by_vm|]. split; [by_vm|]. split; [by_vm|lia].
Qed.

(** ** The Vail scraper *)

(** C6 (amended).  For a resort of the Vail family whose page is fetched:
    when the specialized pass has stored a true (non-zero) base depth, its
    record is returned as it is and the generic extractor is not invoked, so
    the other fields stay unresolved; otherwise the generic extractor runs on
    the same page and, key by key, the specialized value is kept when it is
    true, and the generic value is taken when the specialized one is absent
    or false (zero). *)
Theorem C6_vail_fallback (today : date) (network : string -> option Document)
  (resort_data : Resort) (tr : list event) (url : string) (soup : Document) :
  get_scraper_for_resort (name resort_data) = VailScraper ->
  py_or (snow_report_url resort_data) (website_url resort_data) = Some url ->
  url ≠ "" ->
  network url = Some soup ->
  (get_truthy (VailResortsScraper.specialized_pass today soup url) "snow_depth_base_cm"
   = true ->
   scrape_with (get_scraper_for_resort (name resort_data)) today network resort_data tr
   = (Returned (VailResortsScraper.specialized_pass today soup url),
      tr ++ [EvFetch url]))
  ∧ (get_truthy (VailResortsScraper.specialized_pass today soup url) "snow_depth_base_cm"
     = false ->
     ∀ generic_data,
       parse_snow_report_generic today soup url = Some generic_data ->
       ∃ data,
         scrape_with (get_scraper_for_resort (name resort_data)) today network
           resort_data tr
         = (Returned data, tr ++ [EvFetch url])
         ∧ ∀ k, data !! k
                = if get_truthy (VailResortsScraper.specialized_pass today soup url) k
                  then VailResortsScraper.specialized_pass today soup url !! k
                  else match generic_data !! k with
                       | Some v => Some v
                       | None => VailResortsScraper.specialized_pass today soup url !! k
                       end).
Proof.
  intros Hfam Hurl Hne Hnet. rewrite Hfam.
  unfold scrape_with, VailResortsScraper.scrape_resort. rewrite Hurl.
  assert (str_truthy (Some url) = true) as ->.
  { simpl. apply negb_true_iff, String.eqb_neq, Hne. }
  cbn [negb default from_option]. unfold get_page, id. rewrite Hnet.
  split.
  - intros ->. reflexivity.
  - intros -> generic_data ->. cbn [negb].
    eexists. split; [reflexivity|]. intros k. apply fallback_lookup.
Qed.

(** A Vail page that only reads [Base: 50in]: the specialized pass finds
    nothing and the record is filled from the generic extractor. *)
Lemma C6_vail_fallback_witness :
  ∃ data,
    scrape_with (get_scraper_for_resort "Vail") a_day
      (web (Some (text_only "Base: 50in")) None) (two_url_resort "Vail") []
    = (Returned data, [] ++ [EvFetch url_report])
    ∧ ∀ k, data !! k
           = if get_truthy
                  (VailResortsScraper.specialized_pass a_day (text_only "Base: 50in")
                     url_report) k
             then VailResortsScraper.specialized_pass a_day (text_only "Base: 50in")
                    url_report !! k
             else match (<["snow_depth_base_cm" := VInt 127]>
                           (<["scrape_date" := VDate a_day]>
                              (<["scraped_url" := VStr url_report]> (∅ : pydict))))
                        !! k with
                  | Some v => Some v
                  | None =>
                      VailResortsScraper.specialized_pass a_day (text_only "Base: 50in")
                        url_report !! k
                  end.
Proof.
  refine (proj2 (C6_vail_fallback a_day (web (Some (text_only "Base: 50in")) None)
                   (two_url_resort "Vail") [] url_report (text_only "Base: 50in")
                   _ _ _ _) _ _ _).
  - reflexivity.
  - reflexivity.
  - discriminate.
  - reflexivity.
  - by_vm.
  - by_vm.
Defined.

(** C6, as stated, fails: on [vail_page] the specialized pass resolves the
    base depth and leaves the summit depth unresolved; the generic extractor
    would resolve it to 154 cm on the same page, but it is not invoked and
    the returned record has no summit depth. *)
Lemma C6_counterexample :
  ∃ generic_data data tr,
    VailResortsScraper.specialized_pass a_day vail_page url_report
      !! "snow_depth_summit_cm" = None
    ∧ parse_snow_report_generic a_day vail_page url_report = Some generic_data
    ∧ generic_data !! "snow_depth_summit_cm" = Some (VInt 154)
    ∧ scrape_with (get_scraper_for_resort "Vail") a_day (web (Some vail_page) None)
        (two_url_resort "Vail") []
      = (Returned data, tr)
    ∧ data !! "snow_depth_summit_cm" = None.
Proof.
  exists (<["lifts_total" := VInt 10]>
            (<["lifts_open" := VInt 5]>
               (<["snow_depth_summit_cm" := VInt 154]>
                  (<["scrape_date" := VDate a_day]>
                     (<["scraped_url" := VStr url_report]> ∅))))),
         (<["snow_depth_base_cm" := VInt 106]>
            (<["scrape_date" := VDate a_day]>
               (<["scraped_url" := VStr url_report]> ∅))),
         [EvFetch url_report].
  split; [by_vm|]. split; [by_vm|]. split; [by_vm|]. split; by_vm.
Qed.

(** ** The skip test of the full-text strategy *)

(** [key.replace('_', '')] is [basedepth], [summitdepth], [24hsnow], ...:
    none of them is a key of the result dictionary. *)
Lemma found_key_not_a_field :
  Forall (fun p : string * list regex => found_key p.1 ∉ field_names) patterns.
Proof.
  repeat constructor; intros H; vm_compute in H; split_elem H; discriminate.
Qed.

(** So the tests [if data.get(key.replace('_', ''))] never succeed: a field
    that an earlier strategy has set is searched again, and the search goes
    on after a pattern has stored a value. *)
Lemma skip_test_never_fires (today : date) (soup : Document) (url : string)
  (d0 d : pydict) (key : string) (pattern_list : list regex) :
  early_strategies today soup url = Some d0 ->
  sane_step d0 d ->
  (key, pattern_list) ∈ patterns ->
  get_truthy d (found_key key) = false.
Proof.
  intros H0 Hd Hin.
  assert (d !! found_key key = None) as E; [|unfold get_truthy; now rewrite E].
  unfold patterns in Hin.
  split_elem Hin; inversion Hin; subst; clear Hin;
    (rewrite (sane_step_other d0 d _ Hd);
     [ eapply early_strategies_frame; [..|exact H0]; vm_compute; discriminate
     | intros Hx; vm_compute in Hx; split_elem Hx; discriminate
     | intros Hx; vm_compute in Hx; split_elem Hx; discriminate ]).
Qed.

(** C2 (the code at the failing input).  The meta tag alone resolves the
    base depth to 101 cm (40 in), the body text alone to 127 cm (50 in); on
    the page that has both, the record holds 127, the value of the full-text
    strategy, which has overwritten the meta-tag value. *)
Theorem C2_regex_overwrites_meta (today : date) (url : string) :
  extract_from_meta_tags (meta_page "Snow report: base depth 40 in" "Base: 50in")
  = Some (<["snow_depth_base_cm" := VInt 101]> ∅)
  ∧ early_strategies today (meta_page "Snow report: base depth 40 in" "Base: 50in") url
    = Some (<["snow_depth_base_cm" := VInt 101]>
              (<["scrape_date" := VDate today]> (<["scraped_url" := VStr url]> ∅)))
  ∧ parse_snow_report_generic today (text_only "Base: 50in") url
    = Some (<["snow_depth_base_cm" := VInt 127]>
              (<["scrape_date" := VDate today]> (<["scraped_url" := VStr url]> ∅)))
  ∧ parse_snow_report_generic today
      (meta_page "Snow report: base depth 40 in" "Base: 50in") url
    = Some (<["snow_depth_base_cm" := VInt 127]>
              (<["scrape_date" := VDate today]> (<["scraped_url" := VStr url]> ∅))).
Proof.
  repeat split; by_vm.
Qed.

(** C3 (the code at the failing input).  On the scenario text the fifth
    24-hour pattern stores 20 cm (8 in), and the sixth pattern, tried because
    the search does not stop, matches [42in, Summit: 61in, 24] and stores
    106 cm over it. *)
Theorem C3_scenario_record (today : date) (url : string) :
  parse_snow_report_generic today
    (text_only "Base Depth: 42in, Summit: 61in, 24hr Snowfall: 8in, 5/10 lifts open")
    url
  = Some (<["lifts_total" := VInt 10]>
            (<["lifts_open" := VInt 5]>
               (<["new_snow_24h_cm" := VInt 106]>
                  (<["snow_depth_summit_cm" := VInt 154]>
                     (<["snow_depth_base_cm" := VInt 106]>
                        (<["scrape_date" := VDate today]>
                           (<["scraped_url" := VStr url]> ∅))))))).
Proof.
  by_vm.
Qed.

(** On the scenario text, stopping after the first five 24-hour patterns
    leaves 20 cm; the whole list leaves 106 cm. *)
Lemma scenario_24h_patterns :
  try_patterns "24h_snow" true scenario_text ∅ (List.firstn 5 (patterns_of "24h_snow"))
  = Some (<["new_snow_24h_cm" := VInt 20]> ∅)
  ∧ try_patterns "24h_snow" true scenario_text ∅ (patterns_of "24h_snow")
    = Some (<["new_snow_24h_cm" := VInt 106]> ∅).
Proof.
  split; by_vm.
Qed.

(** ** What a match can contain *)

Lemma str_app_assoc (a b c : string) :
  (a ++ (b ++ c))%string = ((a ++ b) ++ c)%string.
Proof.
  induction a as [|x a IH]; [reflexivity|].
  change (String x (a ++ (b ++ c)) = String x ((a ++ b) ++ c))%string.
  now rewrite IH.
Qed.

Lemma str_all_app (P : ascii -> bool) (a b : string) :
  str_all P (a ++ b)%string = str_all P a && str_all P b.
Proof.
  induction a as [|c a IH]; simpl; [reflexivity|].
  now rewrite IH, andb_assoc.
Qed.

Lemma str_all_weaken (P Q : ascii -> bool) (s : string) :
  (forall x, P x = true -> Q x = true) -> str_all P s = true -> str_all Q s = true.
Proof.
  intros HPQ. induction s as [|c s IH]; simpl; [reflexivity|].
  intros H. apply andb_true_iff in H as [Hc Hs].
  now rewrite (HPQ _ Hc), IH.
Qed.

Lemma consumed_app (w s' : string) : consumed (w ++ s')%string s' = w.
Proof.
  unfold consumed.
  assert (String.length (w ++ s')%string = (String.length w + String.length s')%nat) as ->.
  { induction w as [|c w IH]; simpl; [reflexivity|]. now rewrite IH. }
  replace (String.length w + String.length s' - String.length s')%nat
    with (String.length w) by lia.
  induction w as [|c w IH]; simpl.
  - now destruct s'.
  - now rewrite IH.
Qed.

Section MatcherSound.
Context {A : Type}.
Variable icase : bool.

Lemma star_greedy_sound (cs : cset) (s : string) (k : string -> option A) (a : A) :
  star_greedy icase cs s k = Some a ->
  ∃ w s', s = (w ++ s')%string ∧ str_all (cset_mem icase cs) w = true ∧ k s' = Some a.
Proof.
  induction s as [|x s IH]; simpl; intros H.
  - now exists ""%string, ""%string.
  - destruct (cset_mem icase cs x) eqn:Ex.
    + destruct (star_greedy icase cs s k) as [a'|] eqn:E.
      * inversion H; subst a'. destruct (IH eq_refl) as (w & s' & -> & Hw & Hk).
        exists (String x w), s'. simpl. now rewrite Ex, Hw.
      * now exists ""%string, (String x s).
    + now exists ""%string, (String x s).
Qed.

Lemma star_lazy_sound (cs : cset) (s : string) (k : string -> option A) (a : A) :
  star_lazy icase cs s k = Some a ->
  ∃ w s', s = (w ++ s')%string ∧ str_all (cset_mem icase cs) w = true ∧ k s' = Some a.
Proof.
  induction s as [|x s IH]; simpl; intros H.
  - destruct (k ""%string) eqn:E; [|discriminate].
    inversion H; subst. now exists ""%string, ""%string.
  - destruct (k (String x s)) as [a'|] eqn:E.
    + inversion H; subst. now exists ""%string, (String x s).
    + destruct (cset_mem icase cs x) eqn:Ex; [|discriminate].
      destruct (IH H) as (w & s' & -> & Hw & Hk).
      exists (String x w), s'. simpl. now rewrite Ex, Hw.
Qed.

(** Whatever a successful match consumes is made of characters of the
    pattern's classes, and the continuation has succeeded on the rest. *)
Lemma rmatch_sound (r : regex) :
  forall (s : string) (g : groups) (k : string -> groups -> option A) (a : A),
    rmatch icase r s g k = Some a ->
    ∃ w s' g', s = (w ++ s')%string ∧ str_all (allowed icase r) w = true
               ∧ k s' g' = Some a.
Proof.
  induction r as [|cs|r1 IH1 r2 IH2|r1 IH1 r2 IH2|r1 IH1|cs|cs|cs|n r1 IH1|];
    intros s g k a H; simpl in H.
  - now exists ""%string, s, g.
  - destruct s as [|x s]; [discriminate|].
    destruct (cset_mem icase cs x) eqn:Ex; [|discriminate].
    exists (String x ""), s, g. simpl. now rewrite Ex.
  - apply IH1 in H as (w1 & s1 & g1 & -> & Hw1 & H).
    apply IH2 in H as (w2 & s2 & g2 & -> & Hw2 & H).
    exists (w1 ++ w2)%string, s2, g2. split; [|split; [|exact H]].
    + apply str_app_assoc.
    + simpl. rewrite str_all_app. apply andb_true_iff. split.
      * eapply str_all_weaken; [|exact Hw1]. intros x ->. reflexivity.
      * eapply str_all_weaken; [|exact Hw2]. intros x ->. apply orb_true_r.
  - destruct (rmatch icase r1 s g k) as [a'|] eqn:E.
    + inversion H; subst a'. apply IH1 in E as (w & s' & g' & -> & Hw & Hk).
      exists w, s', g'. split; [reflexivity|]. split; [|exact Hk].
      eapply str_all_weaken; [|exact Hw]. simpl. intros x ->. reflexivity.
    + apply IH2 in H as (w & s' & g' & -> & Hw & Hk).
      exists w, s', g'. split; [reflexivity|]. split; [|exact Hk].
      eapply str_all_weaken; [|exact Hw]. simpl. intros x ->. apply orb_true_r.
  - destruct (rmatch icase r1 s g k) as [a'|] eqn:E.
    + inversion H; subst a'. now apply IH1 in E.
    + now exists ""%string, s, g.
  - apply star_greedy_sound in H as (w & s' & -> & Hw & Hk). now exists w, s', g.
  - destruct s as [|x s]; [discriminate|].
    destruct (cset_mem icase cs x) eqn:Ex; [|discriminate].
    apply star_greedy_sound in H as (w & s' & -> & Hw & Hk).
    exists (String x w), s', g. split; [reflexivity|]. split; [|exact Hk].
    change (cset_mem icase cs x && str_all (cset_mem icase cs) w = true).
    now rewrite Ex, Hw.
  - apply star_lazy_sound in H as (w & s' & -> & Hw & Hk). now exists w, s', g.
  - apply IH1 in H as (w & s' & g' & -> & Hw & Hk). eauto 10.
  - destruct (at_end s); [|discriminate]. now exists ""%string, s, g.
Qed.
End MatcherSound.

Lemma match_at_allowed (icase : bool) (r : regex) (s : string) (m : Match) :
  match_at icase r s = Some m -> str_all (allowed icase r) (group0 m) = true.
Proof.
  unfold match_at. intros H.
  apply rmatch_sound in H as (w & s' & g' & -> & Hw & Hk).
  inversion Hk; subst; simpl. now rewrite consumed_app.
Qed.

Lemma search_allowed (icase : bool) (r : regex) (s : string) (m : Match) :
  search icase r s = Some m -> str_all (allowed icase r) (group0 m) = true.
Proof.
  induction s as [|x s IH]; simpl; intros H.
  - destruct (match_at icase r "") eqn:E; [|discriminate].
    inversion H; subst. eapply match_at_allowed, E.
  - destruct (match_at icase r (String x s)) eqn:E.
    + inversion H; subst. eapply match_at_allowed, E.
    + now apply IH.
Qed.

(** ** Temperature *)

Lemma contains_char_lower (c : ascii) (w : string) :
  str_all (fun x => negb (Ascii.eqb (lower_char x) c)) w = true ->
  contains (String c "") (lower w) = false.
Proof.
  induction w as [|x w IH]; simpl; [reflexivity|].
  intros H. apply andb_true_iff in H as [Hx Hw].
  rewrite (IH Hw). apply negb_true_iff in Hx. rewrite Ascii.eqb_sym in Hx.
  now rewrite Hx.
Qed.

Lemma celsius_chars (x : ascii) :
  allowed false re_temp_c x = true -> negb (Ascii.eqb (lower_char x) "f") = true.
Proof.
  destruct x as [[] [] [] [] [] [] [] []]; vm_compute; congruence.
Qed.

(** The text matched by the Celsius pattern has no [f] in it. *)
Lemma celsius_match_no_f (text : string) (m : Match) :
  search false re_temp_c text = Some m ->
  contains "f" (lower (group0 m)) = false.
Proof.
  intros H. apply search_allowed in H.
  apply contains_char_lower.
  eapply str_all_weaken; [|exact H]. exact celsius_chars.
Qed.

Lemma temperature_search_first (text : string) (pats : list regex) (data : pydict) :
  temperature_search text data pats
  = match first_temp_match text pats with
    | Some m =>
        t ← temperature_of_match m;
        Some (<["temperature_base_c" := VFloat t]> data)
    | None => Some data
    end.
Proof.
  induction pats as [|p pats IH]; simpl; [reflexivity|].
  now destruct (search false p text).
Qed.

(** C10.  Let [m] be the match the temperature loop acts on and [temp] its
    captured integer.  When [temp] is greater than 50 the record holds
    [fahrenheit_to_celsius(temp)], whatever unit marker the matched text
    carries.  When [m] comes from the Celsius pattern (the Fahrenheit pattern
    matching nowhere), the record holds [float(temp)], unconverted, exactly
    when [temp] is at most 50. *)
Theorem C10_temperature_above_50_is_fahrenheit (today : date) (soup : Document)
  (url : string) (data : pydict) (m : Match) (temp : Z) :
  parse_snow_report_generic today soup url = Some data ->
  first_temp_match (text_content soup) temp_patterns = Some m ->
  captured_int m = Some temp ->
  (50 < temp ->
   ∃ t, fahrenheit_to_celsius (PyInt temp) = Some t
        ∧ data !! "temperature_base_c" = Some (VFloat t))
  ∧ (search false re_temp_f (text_content soup) = None ->
     search false re_temp_c (text_content soup) = Some m ->
     (temp <= 50 ->
      ∃ t, float_of_int temp = Some t
           ∧ data !! "temperature_base_c" = Some (VFloat t))
     ∧ (50 < temp ->
        ∃ t, fahrenheit_to_celsius (PyInt temp) = Some t
             ∧ data !! "temperature_base_c" = Some (VFloat t))).
Proof.
  intros H Hm Hc. unfold parse_snow_report_generic in H.
  apply bind_Some in H as (d0 & _ & H). apply bind_Some in H as (d1 & _ & H).
  apply bind_Some in H as (d2 & _ & H). apply bind_Some in H as (d3 & _ & H).
  rewrite temperature_search_first, Hm in H.
  apply bind_Some in H as (t & Ht & H). inversion H; subst data; clear H.
  unfold temperature_of_match in Ht. unfold captured_int in Hc.
  apply bind_Some in Hc as (s & Hs & Hc). rewrite Hs in Ht. simpl in Ht.
  rewrite Hc in Ht. simpl in Ht.
  assert (50 < temp ->
          ∃ t0, fahrenheit_to_celsius (PyInt temp) = Some t0
                ∧ <["temperature_base_c" := VFloat t]> d3 !! "temperature_base_c"
                  = Some (VFloat t0)) as Hhot.
  { intros Hgt. exists t. rewrite lookup_insert_eq. split; [|reflexivity].
    assert ((temp >? 50) = true) as E by lia.
    rewrite E, orb_true_r in Ht. exact Ht. }
  split; [exact Hhot|].
  intros _ Hcel. split; [|exact Hhot].
  intros Hle. exists t. rewrite lookup_insert_eq. split; [|reflexivity].
  assert ((temp >? 50) = false) as E by lia.
  now rewrite (celsius_match_no_f _ _ Hcel), E in Ht.
Qed.

(** [Summit temp 60 C today]: the Celsius pattern matches [60 C]; the value
    stored is 15.6, the conversion of 60 degrees Fahrenheit. *)
Lemma C10_temperature_above_50_is_fahrenheit_witness :
  ∃ t, fahrenheit_to_celsius (PyInt 60) = Some t
       ∧ (<["temperature_base_c" := VFloat (S754_finite false 8782019273372467 (-49))]>
            (<["scrape_date" := VDate a_day]>
               (<["scraped_url" := VStr url_report]> (∅ : pydict))))
           !! "temperature_base_c" = Some (VFloat t).
Proof.
  refine (proj1 (C10_temperature_above_50_is_fahrenheit a_day
                   (text_only "Summit temp 60 C today") url_report
                   (<["temperature_base_c" :=
                        VFloat (S754_finite false 8782019273372467 (-49))]>
                      (<["scrape_date" := VDate a_day]>
                         (<["scraped_url" := VStr url_report]> ∅)))
                   {| group0 := "60 C "; captures := [(1%nat, "60")] |} 60 _ _ _) _).
  - by_vm.
  - by_vm.
  - reflexivity.
  - lia.
Defined.

(** ** Unit conversions *)


Lemma shr_1_nonneg (mrs : shr_record) : 0 <= shr_m mrs -> 0 <= shr_m (shr_1 mrs).
Proof.
  destruct mrs as [m r s]. destruct m as [|[p|p|]|[p|p|]]; simpl; lia.
Qed.

Lemma iter_shr_1_nonneg (p : positive) :
  forall mrs, 0 <= shr_m mrs -> 0 <= shr_m (SpecFloat.iter_pos shr_1 p mrs).
Proof.
  induction p as [p IH|p IH|]; intros mrs H; simpl.
  - apply IH, IH, shr_1_nonneg, H.
  - apply IH, IH, H.
  - apply shr_1_nonneg, H.
Qed.

Lemma shr_fexp_nonneg (m e : Z) (l : location) :
  0 <= m -> 0 <= shr_m (shr_fexp prec emax m e l).1.
Proof.
  intros H. unfold shr_fexp, shr.
  assert (shr_m (shr_record_of_loc m l) = m) as E by now destruct l as [|[]].
  destruct (fexp prec emax (Zdigits2 m + e) - e) as [|p|p]; simpl; try lia.
  apply iter_shr_1_nonneg. lia.
Qed.

(** Rounding a magnitude with a positive sign gives a double that is not
    negative (and not NaN). *)
Lemma binary_round_aux_nonneg (mx ex : Z) (lx : location) :
  0 <= mx -> is_nonneg (binary_round_aux prec emax false mx ex lx) = true.
Proof.
  intros H. unfold binary_round_aux.
  pose proof (shr_fexp_nonneg mx ex lx H) as H1.
  destruct (shr_fexp prec emax mx ex lx) as [mrs' e']. simpl in H1.
  assert (0 <= round_nearest_even (shr_m mrs') (loc_of_shr_record mrs')) as H2.
  { unfold round_nearest_even.
    destruct (loc_of_shr_record mrs') as [|[]]; try lia.
    destruct (Z.even (shr_m mrs')); lia. }
  pose proof (shr_fexp_nonneg _ e' loc_Exact H2) as H3.
  destruct (shr_fexp prec emax _ e' loc_Exact) as [mrs'' e'']. simpl in H3.
  destruct (shr_m mrs''); [reflexivity| |lia].
  now destruct (e'' <=? emax - prec).
Qed.

Lemma float_of_int_nonneg (n : Z) (f : spec_float) :
  0 <= n -> float_of_int n = Some f -> is_nonneg f = true.
Proof.
  intros Hn H. unfold float_of_int, binary_normalize in H.
  destruct n as [|p|p]; [| |lia].
  - now inversion H.
  - unfold binary_round in H.
    destruct (shl_align p 0 _) as [mz ez].
    pose proof (binary_round_aux_nonneg (Z.pos mz) ez loc_Exact ltac:(lia)) as Hs.
    destruct (binary_round_aux prec emax false (Z.pos mz) ez loc_Exact);
      simpl in H; inversion H; subst; exact Hs.
Qed.

Lemma SFmul_nonneg (f : spec_float) :
  is_nonneg f = true ->
  SFmul prec emax f lit_2_54 = S754_nan
  ∨ is_nonneg (SFmul prec emax f lit_2_54) = true.
Proof.
  intros H. destruct f as [s|s| |s m e]; simpl in *; try discriminate.
  - now right.
  - right. now rewrite xorb_false_r.
  - right. rewrite xorb_false_r. apply negb_true_iff in H. subst s.
    apply binary_round_aux_nonneg. lia.
Qed.








(** The literals of the two conversions are the doubles nearest to their
    decimal values. *)
Lemma literals_are_nearest_doubles :
  SFdiv prec emax (exact_int 254) (exact_int 100) = lit_2_54
  ∧ float_of_int 32 = Some lit_32
  ∧ float_of_int 5 = Some lit_5
  ∧ float_of_int 9 = Some lit_9.
Proof. repeat split; vm_compute; reflexivity. Qed.




(** * Further properties of the scrapers *)

(** ** Bookkeeping keys of the generic record *)

Lemma early_strategies_bookkeeping (today : date) (soup : Document) (url : string)
  (data : pydict) :
  early_strategies today soup url = Some data ->
  data !! "scraped_url" = Some (VStr url) ∧ data !! "scrape_date" = Some (VDate today).
Proof.
  intros H. unfold early_strategies in H.
  apply bind_Some in H as (meta_data & Hmeta & H).
  assert (∀ k, k = "scraped_url" ∨ k = "scrape_date" ->
               data !! k
               = dict_update
                   (dict_update
                      (<["scrape_date" := VDate today]>
                         (<["scraped_url" := VStr url]> (∅ : pydict)))
                      (find_json_data soup)) meta_data !! k) as Hk.
  { intros k Hk.
    eapply (for_each_invariant
              (fun d : pydict => d !! k = _ !! k)); [| |exact H].
    - intros st x st' Hst Hstep. rewrite <- Hst.
      destruct Hk as [-> | ->];
        (eapply container_step_frame; [| |exact Hstep]; discriminate).
    - reflexivity. }
  split.
  - rewrite (Hk _ (or_introl eq_refl)). unfold dict_update. rewrite !lookup_union.
    rewrite (extract_from_meta_tags_frame soup meta_data "scraped_url")
      by (discriminate || exact Hmeta).
    rewrite (find_json_data_frame soup "scraped_url") by discriminate.
    rewrite lookup_insert_ne by discriminate. now rewrite lookup_insert_eq.
  - rewrite (Hk _ (or_intror eq_refl)). unfold dict_update. rewrite !lookup_union.
    rewrite (extract_from_meta_tags_frame soup meta_data "scrape_date")
      by (discriminate || exact Hmeta).
    rewrite (find_json_data_frame soup "scrape_date") by discriminate.
    now rewrite lookup_insert_eq.
Qed.

(** The two bookkeeping keys survive every strategy. *)
Lemma parse_bookkeeping_keys (today : date) (soup : Document) (url : string)
  (data : pydict) :
  parse_snow_report_generic today soup url = Some data ->
  data !! "scraped_url" = Some (VStr url) ∧ data !! "scrape_date" = Some (VDate today).
Proof.
  intros H. unfold parse_snow_report_generic in H.
  apply bind_Some in H as (d0 & H0 & H). apply bind_Some in H as (d1 & H1 & H).
  apply bind_Some in H as (d2 & H2 & H). apply bind_Some in H as (d3 & H3 & H4).
  apply full_text_search_sane in H1.
  apply early_strategies_bookkeeping in H0 as [Hu Hd].
  assert (∀ k, k = "scraped_url" ∨ k = "scrape_date" -> data !! k = d0 !! k) as Hk.
  { intros k Hk.
    etrans; [eapply temperature_search_frame; [|exact H4];
             destruct Hk as [-> | ->]; discriminate|].
    etrans; [eapply ratio_status_frame; [| |exact H3];
             destruct Hk as [-> | ->]; discriminate|].
    etrans; [eapply ratio_status_frame; [| |exact H2];
             destruct Hk as [-> | ->]; discriminate|].
    apply (sane_step_other d0 d1 k H1);
      destruct Hk as [-> | ->]; intros Hin; vm_compute in Hin; split_elem Hin;
      discriminate. }
  rewrite !Hk by tauto. now split.
Qed.

(** X1.  The record returned by the generic extractor carries the URL it
    was given and the capture date, whatever the page holds. *)
Theorem generic_record_bookkeeping (today : date) (soup : Document) (url : string)
  (data : pydict) :
  parse_snow_report_generic today soup url = Some data ->
  data !! "scraped_url" = Some (VStr url) ∧ data !! "scrape_date" = Some (VDate today).
Proof.
  exact (parse_bookkeeping_keys today soup url data).
Qed.

(** ** What the per-resort loops request and return *)

Lemma fetched_last (tr : list event) (u : string) :
  last (fetched (tr ++ [EvFetch u])) = Some u.
Proof. rewrite fetched_app. simpl. apply last_snoc. Qed.

(** The generic loop, whatever its outcome: the URLs it requests are the
    candidates, in order, up to the one it stops at. *)
Lemma try_urls_trace (today : date) (network : string -> option Document)
  (urls : list string) :
  forall (tr tr' : list event) (out : outcome (option pydict)),
    try_urls today network urls tr = (out, tr') ->
    ∃ l, fetched tr' = fetched tr ++ l ∧ l `prefix_of` urls
         ∧ match out with
           | Returned (Some data) =>
               ∃ u soup, last l = Some u ∧ network u = Some soup
                         ∧ parse_snow_report_generic today soup u = Some data
                         ∧ meaningful data = true
           | Returned None => l = urls
           | Raised => True
           end.
Proof.
  induction urls as [|u urls IH]; intros tr tr' out H; cbn [try_urls get_page] in H.
  - inversion H; subst. exists []. now rewrite app_nil_r.
  - assert (∀ tr1 o t',
              fetched tr1 = fetched tr ++ [u] ->
              try_urls today network urls tr1 = (o, t') ->
              ∃ l, fetched t' = fetched tr ++ l ∧ l `prefix_of` u :: urls
                   ∧ match o with
                     | Returned (Some data) =>
                         ∃ u0 soup, last l = Some u0 ∧ network u0 = Some soup
                           ∧ parse_snow_report_generic today soup u0 = Some data
                           ∧ meaningful data = true
                     | Returned None => l = u :: urls
                     | Raised => True
                     end) as Hrest.
    { intros tr1 o t' Htr1 Hrec.
      apply IH in Hrec as (l & Hl & Hpre & Hout).
      exists (u :: l). rewrite Hl, Htr1, <- app_assoc. split; [reflexivity|].
      split; [now apply prefix_cons|].
      destruct o as [[data|]|]; [|now subst|exact I].
      destruct Hout as (u0 & soup & Hlast & Hrest). exists u0, soup.
      split; [|exact Hrest]. destruct l; [discriminate|exact Hlast]. }
    destruct (network u) as [soup|] eqn:Hnet.
    + destruct (parse_snow_report_generic today soup u) as [data|] eqn:Hp.
      * destruct (meaningful data) eqn:Hm.
        -- inversion H; subst. exists [u]. rewrite fetched_app. simpl.
           split; [reflexivity|]. split; [apply prefix_cons, prefix_nil|].
           now exists u, soup.
        -- eapply Hrest; [|exact H].
           rewrite !fetched_app. simpl. now rewrite app_nil_r.
      * inversion H; subst. exists [u]. rewrite fetched_app. simpl.
        split; [reflexivity|]. split; [apply prefix_cons, prefix_nil|exact I].
    + eapply Hrest; [|exact H]. now rewrite fetched_app.
Qed.

Lemma minimal_record_not_meaningful (today : date) (v : pyval) :
  meaningful (<["scrape_date" := VDate today]> (<["scraped_url" := v]> ∅)) = false.
Proof.
  unfold meaningful. apply andb_false_iff. right.
  unfold meaningful_fields, get_truthy. cbn [existsb].
  now rewrite !lookup_insert_ne, !lookup_empty by discriminate.
Qed.

(** The two ways the generic loop returns. *)
Lemma scrape_resort_cases (today : date) (network : string -> option Document)
  (resort_data : Resort) (tr tr' : list event) (data : pydict) :
  SnowDataScraper.scrape_resort today network resort_data tr = (Returned data, tr') ->
  (meaningful data = true
   ∧ ∃ u soup, last (fetched tr') = Some u
               ∧ u ∈ urls_to_try resort_data
               ∧ network u = Some soup
               ∧ parse_snow_report_generic today soup u = Some data
               ∧ data !! "scraped_url" = Some (VStr u))
  ∨ (meaningful data = false
     ∧ fetched tr' = fetched tr ++ urls_to_try resort_data
     ∧ data = <["scrape_date" := VDate today]>
                (<["scraped_url" :=
                     val_of_str (py_or (snow_report_url resort_data)
                                       (website_url resort_data))]> ∅)).
Proof.
  intros H. unfold SnowDataScraper.scrape_resort in H.
  destruct (try_urls today network (urls_to_try resort_data) tr)
    as [[[d|]|] tr1] eqn:E; inversion H; subst; clear H.
  - left. apply try_urls_trace in E as (l & Hl & Hpre & u & soup & Hlast & Hnet & Hp & Hm).
    split; [exact Hm|]. exists u, soup.
    assert (u ∈ l) as Hin.
    { destruct l as [|x l] using rev_ind; [discriminate|].
      rewrite last_snoc in Hlast. inversion Hlast; subst. set_solver. }
    split; [|split; [|split; [exact Hnet|split; [exact Hp|]]]].
    + rewrite Hl. destruct l as [|x l] using rev_ind; [discriminate|].
      rewrite last_snoc in Hlast. inversion Hlast; subst.
      now rewrite app_assoc, last_snoc.
    + destruct Hpre as [k ->]. set_solver.
    + apply (parse_bookkeeping_keys _ _ _ _ Hp).
  - right. apply try_urls_trace in E as (l & Hl & _ & ->).
    split; [apply minimal_record_not_meaningful|]. now split.
Qed.

(** X3.  A record returned by the generic per-resort loop is of one of two
    kinds.  Either it is meaningful: then it is the extraction of a page
    fetched from a candidate URL, that URL is the last one requested and it is
    the record's [scraped_url].  Or it is the minimal record, not meaningful,
    and every candidate has been requested. *)
Theorem generic_scrape_result (today : date) (network : string -> option Document)
  (resort_data : Resort) (tr tr' : list event) (data : pydict) :
  SnowDataScraper.scrape_resort today network resort_data tr = (Returned data, tr') ->
  (meaningful data = true
   ∧ ∃ u soup, last (fetched tr') = Some u
               ∧ u ∈ urls_to_try resort_data
               ∧ network u = Some soup
               ∧ parse_snow_report_generic today soup u = Some data
               ∧ data !! "scraped_url" = Some (VStr u))
  ∨ (meaningful data = false
     ∧ fetched tr' = fetched tr ++ urls_to_try resort_data
     ∧ data = <["scrape_date" := VDate today]>
                (<["scraped_url" :=
                     val_of_str (py_or (snow_report_url resort_data)
                                       (website_url resort_data))]> ∅)).
Proof.
  exact (scrape_resort_cases today network resort_data tr tr' data).
Qed.

Lemma urls_to_try_spec (resort_data : Resort) :
  (length (urls_to_try resort_data) <= 2)%nat
  ∧ ∀ u, u ∈ urls_to_try resort_data ->
         u ≠ "" ∧ (snow_report_url resort_data = Some u
                   ∨ website_url resort_data = Some u).
Proof.
  unfold urls_to_try, str_truthy.
  destruct (snow_report_url resort_data) as [a|], (website_url resort_data) as [b|];
    simpl;
    repeat match goal with
    | |- context [String.eqb ?x ""] =>
        let E := fresh "E" in destruct (String.eqb_spec x "") as [E|E]
    end; simpl; (split; [lia|]); intros u Hu; split_elem Hu; subst; auto.
Qed.

Lemma py_or_head (resort_data : Resort) :
  str_truthy (py_or (snow_report_url resort_data) (website_url resort_data)) = true ->
  ∃ rest, urls_to_try resort_data
          = default "" (py_or (snow_report_url resort_data) (website_url resort_data))
            :: rest.
Proof.
  unfold py_or, urls_to_try.
  destruct (str_truthy (snow_report_url resort_data)) eqn:Ea; intros H.
  - eexists. reflexivity.
  - rewrite H. simpl. eexists. reflexivity.
Qed.

(** X4.  Whatever the outcome (a record or an exception), the URLs a scraper
    requests for a resort are its candidate URLs, in order, from the first
    one on without a gap: at most two requests, at most one for the Vail
    scraper, never an empty URL and never a URL other than the resort's
    snow-report or website URL. *)
Theorem scrapers_fetch_only_candidates (s : scraper) (today : date)
  (network : string -> option Document) (resort_data : Resort)
  (tr tr' : list event) (out : outcome pydict) :
  scrape_with s today network resort_data tr = (out, tr') ->
  ∃ l, fetched tr' = fetched tr ++ l
       ∧ l `prefix_of` urls_to_try resort_data
       ∧ (length l <= 2)%nat
       ∧ (s = VailScraper -> (length l <= 1)%nat)
       ∧ ∀ u, u ∈ l ->
              u ≠ "" ∧ (snow_report_url resort_data = Some u
                        ∨ website_url resort_data = Some u).
Proof.
  intros H.
  assert (∃ l, fetched tr' = fetched tr ++ l
               ∧ l `prefix_of` urls_to_try resort_data
               ∧ (s = VailScraper -> (length l <= 1)%nat)) as (l & Hl & Hpre & Hv).
  { destruct s; unfold scrape_with in H.
    - unfold SnowDataScraper.scrape_resort in H.
      destruct (try_urls today network (urls_to_try resort_data) tr) as [o tr1] eqn:E.
      apply try_urls_trace in E as (l & Hl & Hpre & _).
      exists l. assert (tr' = tr1) as -> by (destruct o as [[?|]|]; now inversion H).
      split; [exact Hl|]. split; [exact Hpre|discriminate].
    - unfold VailResortsScraper.scrape_resort in H.
      destruct (str_truthy (py_or _ _)) eqn:Et; cbn [negb] in H.
      + destruct (py_or_head resort_data Et) as [rest Hrest].
        exists [default "" (py_or (snow_report_url resort_data)
                              (website_url resort_data))].
        assert (tr' = tr ++ [EvFetch (default "" (py_or (snow_report_url resort_data)
                                                    (website_url resort_data)))]) as ->.
        { unfold get_page in H.
          destruct (network _); [|now inversion H].
          destruct (negb _); [|now inversion H].
          destruct (parse_snow_report_generic _ _ _); now inversion H. }
        rewrite fetched_app. split; [reflexivity|].
        split; [rewrite Hrest; apply prefix_cons, prefix_nil|]. simpl. lia.
      + inversion H; subst. exists []. rewrite app_nil_r.
        split; [reflexivity|]. split; [apply prefix_nil|]. simpl. lia. }
  exists l. destruct (urls_to_try_spec resort_data) as [Hlen Hall].
  split; [exact Hl|]. split; [exact Hpre|].
  split; [apply prefix_length in Hpre; lia|]. split; [exact Hv|].
  intros u Hu. apply Hall. destruct Hpre as [k ->]. apply elem_of_app. now left.
Qed.

(** ** The caller's test *)

Lemma meaningful_has_data (data : pydict) :
  meaningful data = true -> has_data data = true.
Proof.
  intros H. apply meaningful_spec in H as (k & v & Hin & Hk & _).
  unfold has_data. apply existsb_exists. exists k.
  split; [now apply list_elem_of_In|].
  apply bool_decide_eq_true. now rewrite Hk.
Qed.

(** X5.  [collect_snow_data] stores a result when one of the five fields is
    present; the generic loop returns a candidate's record when one of them is
    true.  On every record the generic scraper returns, the two tests agree. *)
Theorem generic_has_data_iff_meaningful (today : date)
  (network : string -> option Document) (resort_data : Resort)
  (tr tr' : list event) (data : pydict) :
  SnowDataScraper.scrape_resort today network resort_data tr = (Returned data, tr') ->
  has_data data = meaningful data.
Proof.
  intros H. apply scrape_resort_cases in H as [[Hm _]|(Hm & _ & ->)].
  - rewrite Hm. now apply meaningful_has_data.
  - rewrite Hm. unfold has_data. cbn [existsb].
    rewrite !lookup_insert_ne, !lookup_empty by discriminate.
    repeat (rewrite bool_decide_eq_false_2 by (intros [? ?]; discriminate)).
    reflexivity.
Qed.

(** ** The Vail record *)

(** X9.  The Vail scraper returns the empty dictionary exactly when no page
    was fetched (no URL, or the request failed); otherwise its record carries
    the URL it chose and the capture date, also after the merge with the
    generic record. *)
Theorem vail_record_bookkeeping (today : date) (network : string -> option Document)
  (resort_data : Resort) (tr tr' : list event) (data : pydict) :
  VailResortsScraper.scrape_resort today network resort_data tr = (Returned data, tr') ->
  (data = ∅
   ∧ (str_truthy (py_or (snow_report_url resort_data) (website_url resort_data)) = false
      ∨ network (default "" (py_or (snow_report_url resort_data)
                                   (website_url resort_data))) = None))
  ∨ (∃ url soup,
        py_or (snow_report_url resort_data) (website_url resort_data) = Some url
        ∧ network url = Some soup
        ∧ data !! "scraped_url" = Some (VStr url)
        ∧ data !! "scrape_date" = Some (VDate today)).
Proof.
  intros H. unfold VailResortsScraper.scrape_resort in H.
  destruct (py_or (snow_report_url resort_data) (website_url resort_data)) as [url|] eqn:Eu.
  2: { left. simpl in H. inversion H; subst. now split; [|left]. }
  destruct (str_truthy (Some url)) eqn:Et; cbn [negb] in H.
  2: { left. inversion H; subst. now split; [|left]. }
  cbn [default from_option] in H. unfold id, get_page in H.
  destruct (network url) as [soup|] eqn:Hnet.
  2: { left. inversion H; subst. split; [reflexivity|right; exact Hnet]. }
  right. exists url, soup. split; [reflexivity|]. split; [exact Hnet|].
  assert (VailResortsScraper.specialized_pass today soup url !! "scraped_url"
          = Some (VStr url)) as Su.
  { unfold VailResortsScraper.specialized_pass.
    rewrite depth_loop_frame by discriminate.
    rewrite lookup_insert_ne by discriminate. apply lookup_insert_eq. }
  assert (VailResortsScraper.specialized_pass today soup url !! "scrape_date"
          = Some (VDate today)) as Sd.
  { unfold VailResortsScraper.specialized_pass.
    rewrite depth_loop_frame by discriminate. apply lookup_insert_eq. }
  destruct (negb (get_truthy _ "snow_depth_base_cm")).
  - destruct (parse_snow_report_generic today soup url) as [g|]; [|discriminate].
    inversion H; subst. rewrite !fallback_lookup. unfold get_truthy.
    rewrite Su, Sd. simpl in *. now rewrite Et.
  - now inversion H; subst.
Qed.

(** ** What the groups of a match capture *)

Section GroupsSound.
Context {A : Type}.
Variable icase : bool.

(** As [rmatch_sound], with the captures: a group bound by the match holds
    characters of the classes inside that group. *)
Lemma rmatch_groups (r : regex) :
  forall (s : string) (g : groups) (k : string -> groups -> option A) (a : A),
    rmatch icase r s g k = Some a ->
    ∃ w s' g', s = (w ++ s')%string ∧ str_all (allowed icase r) w = true
               ∧ k s' g' = Some a
               ∧ ∀ n v, group_lookup g' n = Some v ->
                        group_lookup g n = Some v
                        ∨ str_all (group_chars icase r n) v = true.
Proof.
  induction r as [|cs|r1 IH1 r2 IH2|r1 IH1 r2 IH2|r1 IH1|cs|cs|cs|m r1 IH1|];
    intros s g k a H; simpl in H.
  - exists ""%string, s, g. repeat split; auto.
  - destruct s as [|x s]; [discriminate|].
    destruct (cset_mem icase cs x) eqn:Ex; [|discriminate].
    exists (String x ""), s, g. simpl. rewrite Ex. repeat split; auto.
  - apply IH1 in H as (w1 & s1 & g1 & -> & Hw1 & H & Hg1).
    apply IH2 in H as (w2 & s2 & g2 & -> & Hw2 & H & Hg2).
    exists (w1 ++ w2)%string, s2, g2. split; [apply str_app_assoc|].
    split; [|split; [exact H|]].
    + simpl. rewrite str_all_app. apply andb_true_iff. split.
      * eapply str_all_weaken; [|exact Hw1]. intros x ->. reflexivity.
      * eapply str_all_weaken; [|exact Hw2]. intros x ->. apply orb_true_r.
    + intros n v Hv. destruct (Hg2 n v Hv) as [Hv1|Hv2].
      * destruct (Hg1 n v Hv1) as [Hv0|Hv1']; [now left|right].
        eapply str_all_weaken; [|exact Hv1']. simpl. intros x ->. reflexivity.
      * right. eapply str_all_weaken; [|exact Hv2]. simpl. intros x ->.
        apply orb_true_r.
  - destruct (rmatch icase r1 s g k) as [a'|] eqn:E.
    + inversion H; subst a'. apply IH1 in E as (w & s' & g' & -> & Hw & Hk & Hg).
      exists w, s', g'. split; [reflexivity|]. split; [|split; [exact Hk|]].
      * eapply str_all_weaken; [|exact Hw]. simpl. intros x ->. reflexivity.
      * intros n v Hv. destruct (Hg n v Hv) as [?|Hc]; [now left|right].
        eapply str_all_weaken; [|exact Hc]. simpl. intros x ->. reflexivity.
    + apply IH2 in H as (w & s' & g' & -> & Hw & Hk & Hg).
      exists w, s', g'. split; [reflexivity|]. split; [|split; [exact Hk|]].
      * eapply str_all_weaken; [|exact Hw]. simpl. intros x ->. apply orb_true_r.
      * intros n v Hv. destruct (Hg n v Hv) as [?|Hc]; [now left|right].
        eapply str_all_weaken; [|exact Hc]. simpl. intros x ->. apply orb_true_r.
  - destruct (rmatch icase r1 s g k) as [a'|] eqn:E.
    + inversion H; subst a'. now apply IH1 in E.
    + exists ""%string, s, g. repeat split; auto.
  - apply star_greedy_sound in H as (w & s' & -> & Hw & Hk).
    exists w, s', g. repeat split; auto.
  - destruct s as [|x s]; [discriminate|].
    destruct (cset_mem icase cs x) eqn:Ex; [|discriminate].
    apply star_greedy_sound in H as (w & s' & -> & Hw & Hk).
    exists (String x w), s', g. split; [reflexivity|].
    split; [|split; [exact Hk|auto]].
    change (cset_mem icase cs x && str_all (cset_mem icase cs) w = true).
    now rewrite Ex, Hw.
  - apply star_lazy_sound in H as (w & s' & -> & Hw & Hk).
    exists w, s', g. repeat split; auto.
  - apply IH1 in H as (w & s' & g' & -> & Hw & Hk & Hg).
    rewrite consumed_app in Hk.
    exists w, s', ((m, w) :: g'). split; [reflexivity|].
    split; [exact Hw|]. split; [exact Hk|].
    intros n v Hv. simpl in Hv. destruct (Nat.eqb m n) eqn:Emn.
    + inversion Hv; subst v. right.
      eapply str_all_weaken; [|exact Hw]. simpl. rewrite Emn. intros x ->. reflexivity.
    + destruct (Hg n v Hv) as [?|Hc]; [now left|right].
      eapply str_all_weaken; [|exact Hc]. simpl. intros x ->. apply orb_true_r.
  - destruct (at_end s); [|discriminate]. exists ""%string, s, g. repeat split; auto.
Qed.
End GroupsSound.

Lemma match_at_groups (icase : bool) (r : regex) (s : string) (m : Match)
  (n : nat) (v : string) :
  match_at icase r s = Some m -> group_lookup (captures m) n = Some v ->
  str_all (group_chars icase r n) v = true.
Proof.
  unfold match_at. intros H Hv.
  apply rmatch_groups in H as (w & s' & g' & -> & Hw & Hk & Hg).
  inversion Hk; subst; simpl in Hv.
  destruct (Hg n v Hv) as [H0|H1]; [discriminate|exact H1].
Qed.

Lemma search_from_match_at (icase : bool) (r : regex) (s : string) (m : Match) :
  search icase r s = Some m -> ∃ s', match_at icase r s' = Some m.
Proof.
  induction s as [|x s IH]; simpl; intros H.
  - destruct (match_at icase r "") eqn:E; [|discriminate].
    inversion H; subst. eauto.
  - destruct (match_at icase r (String x s)) eqn:E.
    + inversion H; subst. eauto.
    + now apply IH.
Qed.

Lemma finditer_from_match_at (icase : bool) (r : regex) (s : string) :
  forall (skip : nat) (m : Match),
    m ∈ finditer_from icase r s skip -> ∃ s', match_at icase r s' = Some m.
Proof.
  induction s as [|x s IH]; intros skip m H; destruct skip as [|skip]; simpl in H.
  - destruct (match_at icase r "") eqn:E; [|now apply elem_of_nil in H].
    apply list_elem_of_singleton in H. subst. eauto.
  - now apply elem_of_nil in H.
  - destruct (match_at icase r (String x s)) eqn:E.
    + apply elem_of_cons in H as [->|H]; [eauto|]. now apply IH in H.
    + now apply IH in H.
  - now apply IH in H.
Qed.

Lemma all_chars_complete (x : ascii) : x ∈ all_chars.
Proof.
  unfold all_chars. apply list_elem_of_In, in_map_iff.
  exists (nat_of_ascii x). split; [apply ascii_nat_embedding|].
  apply in_seq. pose proof (nat_ascii_bounded x). lia.
Qed.

Lemma all_digits_str_all (v : string) :
  str_all is_digit v = true -> all_digits v = true.
Proof. induction v as [|c v IH]; simpl; [reflexivity|]. intros H.
  apply andb_true_iff in H as [Hc Hv]. now rewrite Hc, IH. Qed.

(** A group that can only hold digits yields a digit string. *)
Lemma digit_group_sound (icase : bool) (r : regex) (n : nat) (s : string)
  (m : Match) (v : string) :
  digit_group icase r n = true -> (0 < n)%nat ->
  match_at icase r s = Some m -> group m n = Some v -> all_digits v = true.
Proof.
  intros Hd Hn Hm Hv. apply all_digits_str_all.
  destruct n as [|n]; [lia|]. simpl in Hv.
  eapply str_all_weaken; [|exact (match_at_groups _ _ _ _ _ _ Hm Hv)].
  intros x Hx. unfold digit_group in Hd. rewrite forallb_forall in Hd.
  specialize (Hd x (proj1 (list_elem_of_In _ _) (all_chars_complete x))).
  now rewrite Hx in Hd.
Qed.

Lemma digits_val_nonneg (s : string) :
  forall acc, 0 <= acc -> all_digits s = true -> 0 <= digits_val acc s.
Proof.
  induction s as [|c s IH]; intros acc Hacc H; simpl in *; [exact Hacc|].
  apply andb_true_iff in H as [Hc Hs]. apply IH; [|exact Hs].
  unfold digit_val. unfold is_digit, in_range in Hc.
  apply andb_true_iff in Hc as [H1 H2].
  apply N.leb_le in H1. lia.
Qed.

Lemma int_of_digits_nonneg (v : string) (z : Z) :
  all_digits v = true -> int_of_str v = Some z -> 0 <= z.
Proof.
  intros Hd H. unfold int_of_str in H. destruct v as [|c v]; [discriminate|].
  destruct (Ascii.eqb_spec c "-") as [->|Hc].
  - simpl in Hd. discriminate.
  - rewrite Hd in H. inversion H; subst.
    change (0 <= digits_val 0 (String c v)). apply digits_val_nonneg; [lia|exact Hd].
Qed.

Lemma int_of_float_nonneg (p : spec_float) (z : Z) :
  is_nonneg p = true -> int_of_float p = Some z -> 0 <= z.
Proof.
  intros Hp H. destruct p as [s|s| |s m e]; simpl in *; try discriminate.
  - inversion H; lia.
  - apply negb_true_iff in Hp. subst s. inversion H; subst; clear H. simpl.
    destruct (0 <=? e) eqn:E.
    + apply Z.mul_nonneg_nonneg; [lia|]. apply Z.pow_nonneg. lia.
    + apply Z.div_pos; [lia|]. apply Z.pow_pos_nonneg; lia.
Qed.

Lemma inches_to_cm_nonneg (n z : Z) :
  0 <= n -> inches_to_cm (PyInt n) = Some z -> 0 <= z.
Proof.
  intros Hn H. unfold inches_to_cm in H.
  apply bind_Some in H as (f & Hf & H).
  apply float_of_int_nonneg in Hf; [|exact Hn].
  destruct (SFmul_nonneg f Hf) as [Hm|Hm].
  - rewrite Hm in H. discriminate.
  - eapply int_of_float_nonneg; eauto.
Qed.

(** ** The shape of the generic record *)

Lemma record_ok_empty : record_ok ∅.
Proof. intros k v H. now rewrite lookup_empty in H. Qed.

Lemma record_ok_insert (d : pydict) (k : string) (v : pyval) :
  record_ok d -> field_ok k v -> record_ok (<[k := v]> d).
Proof.
  intros Hd Hv k' v' H. destruct (decide (k = k')) as [->|Hne].
  - rewrite lookup_insert_eq in H. now inversion H; subst.
  - rewrite lookup_insert_ne in H by exact Hne. now apply Hd.
Qed.

Lemma record_ok_update (d other : pydict) :
  record_ok d -> record_ok other -> record_ok (dict_update d other).
Proof.
  intros Hd Ho k v H. unfold dict_update in H.
  apply lookup_union_Some_raw in H as [H|[_ H]]; [now apply Ho|now apply Hd].
Qed.

Lemma field_ok_count (k : string) (n : Z) :
  k ∈ ["snow_depth_base_cm"; "snow_depth_summit_cm"; "new_snow_24h_cm";
       "new_snow_48h_cm"; "new_snow_7d_cm"; "lifts_open"; "lifts_total";
       "runs_open"; "runs_total"] ->
  0 <= n -> field_ok k (VInt n).
Proof. intros Hk Hn. do 3 right. split; [exact Hk|]. now exists n. Qed.

Ltac in_fields := repeat first [apply list_elem_of_here | apply list_elem_of_further].

Lemma captured_nonneg (icase : bool) (r : regex) (n : nat) (s : string)
  (m : Match) (v : string) (z : Z) :
  digit_group icase r n = true -> (0 < n)%nat ->
  match_at icase r s = Some m -> group m n = Some v -> int_of_str v = Some z ->
  0 <= z.
Proof.
  intros Hd Hn Hm Hv Hz. eapply int_of_digits_nonneg; [|exact Hz].
  eapply digit_group_sound; eauto.
Qed.

Lemma extract_number_nonneg (text : string) (n : Z) :
  extract_number text = Some n -> 0 <= n.
Proof.
  unfold extract_number. destruct (String.eqb text ""); [discriminate|].
  destruct (search false re_number _) as [m|] eqn:E; [|discriminate].
  intros H. apply bind_Some in H as (v & Hv & Hz).
  apply search_from_match_at in E as [s' E].
  eapply (captured_nonneg false re_number 1 _ _ _ _ ltac:(by_vm) ltac:(lia)); eauto.
Qed.

Lemma convert_if_inches_nonneg (unit : string) (value z : Z) :
  0 <= value -> convert_if_inches unit value = Some z -> 0 <= z.
Proof.
  intros Hv H. unfold convert_if_inches in H.
  destruct (_ || _); [now apply inches_to_cm_nonneg in H|].
  now inversion H; subst.
Qed.

Lemma find_json_data_ok (soup : Document) : record_ok (find_json_data soup).
Proof.
  unfold find_json_data.
  assert (forall l (acc : pydict), record_ok acc ->
            record_ok
              (fold_left
                 (fun data attr =>
                    match extract_number attr with
                    | Some snow_val =>
                        if negb (snow_val =? 0)
                        then <["new_snow_24h_cm" := VInt snow_val]> data
                        else data
                    | None => data
                    end) l acc)) as H.
  { induction l as [|a l IH]; intros acc Hacc; simpl; [exact Hacc|].
    apply IH. destruct (extract_number a) as [v|] eqn:E; [|exact Hacc].
    destruct (negb (v =? 0)); [|exact Hacc].
    apply record_ok_insert; [exact Hacc|].
    apply field_ok_count; [in_fields|]. now apply extract_number_nonneg in E. }
  apply H, record_ok_empty.
Qed.

Lemma meta_step_ok (data data' : pydict) (meta : Meta) :
  record_ok data -> meta_step data meta = Some data' -> record_ok data'.
Proof.
  intros Hd H. unfold meta_step in H.
  destruct (_ || _); [|now inversion H; subst].
  destruct (finditer false re_meta_number _) as [|m ms] eqn:E;
    [now inversion H; subst|].
  assert (m ∈ finditer false re_meta_number
                (lower (default "" (meta_content meta)))) as Hin
    by (rewrite E; apply list_elem_of_here).
  apply finditer_from_match_at in Hin as [s' Hm].
  apply bind_Some in H as (s & Hs & H). apply bind_Some in H as (unit & _ & H).
  apply bind_Some in H as (value & Hvalue & H). apply bind_Some in H as (z & Hz & H).
  assert (0 <= z) as Hnn.
  { eapply convert_if_inches_nonneg; [|exact Hz].
    eapply (captured_nonneg false re_meta_number 1 _ _ _ _ ltac:(by_vm) ltac:(lia));
      eauto. }
  destruct (contains "base" _).
  - inversion H; subst. apply record_ok_insert; [exact Hd|].
    apply field_ok_count; [in_fields|exact Hnn].
  - destruct (_ || _); inversion H; subst; [|exact Hd].
    apply record_ok_insert; [exact Hd|]. apply field_ok_count; [in_fields|exact Hnn].
Qed.

Lemma container_field_ok (keyword : regex) (key text : string) (data data' : pydict) :
  key ∈ ["snow_depth_base_cm"; "snow_depth_summit_cm"] ->
  record_ok data -> container_field keyword key text data = Some data' ->
  record_ok data'.
Proof.
  intros Hkey Hd H. unfold container_field in H.
  destruct (search true keyword text) as [kw|]; [|now inversion H; subst].
  destruct (search true re_depth text) as [m|] eqn:E; [|now inversion H; subst].
  destruct (negb _); [|now inversion H; subst].
  apply search_from_match_at in E as [s' Hm].
  apply bind_Some in H as (s & Hs & H). apply bind_Some in H as (value & Hvalue & H).
  apply bind_Some in H as (z & Hz & H). inversion H; subst.
  apply record_ok_insert; [exact Hd|]. apply field_ok_count.
  - split_elem Hkey; in_fields.
  - eapply convert_if_inches_nonneg; [|exact Hz].
    eapply (captured_nonneg true re_depth 1 _ _ _ _ ltac:(by_vm) ltac:(lia)); eauto.
Qed.

Lemma early_strategies_ok (today : date) (soup : Document) (url : string)
  (data : pydict) :
  early_strategies today soup url = Some data -> record_ok data.
Proof.
  intros H. unfold early_strategies in H.
  apply bind_Some in H as (meta_data & Hmeta & H).
  eapply (for_each_invariant record_ok); [| |exact H].
  - intros st x st' Hst Hstep. unfold container_step in Hstep.
    apply bind_Some in Hstep as (d1 & H1 & H2).
    eapply container_field_ok; [| |exact H2]; [in_fields|].
    eapply container_field_ok; [| |exact H1]; [in_fields|exact Hst].
  - apply record_ok_update; [apply record_ok_update|].
    + apply record_ok_insert; [apply record_ok_insert; [apply record_ok_empty|]|].
      * left. split; [reflexivity|eauto].
      * right. left. split; [reflexivity|eauto].
    + apply find_json_data_ok.
    + eapply (for_each_invariant record_ok); [| |exact Hmeta].
      * intros st x st'. apply meta_step_ok.
      * apply record_ok_empty.
Qed.

Lemma assign_field_ok (key : string) (value : Z) (data : pydict) :
  record_ok data -> 0 <= value -> record_ok (assign_field key value data).
Proof.
  intros Hd Hv. unfold assign_field.
  repeat match goal with
  | |- context [String.eqb key ?c] => destruct (String.eqb key c)
  end; try exact Hd;
    (apply record_ok_insert; [exact Hd|apply field_ok_count; [in_fields|exact Hv]]).
Qed.

Lemma try_matches_ok (key : string) (is_inches : bool) (matches : list Match)
  (data data' : pydict) :
  Forall (fun m => ∀ z, captured_int m = Some z -> 0 <= z) matches ->
  record_ok data -> try_matches key is_inches data matches = Some data' ->
  record_ok data'.
Proof.
  intros Hall Hd. induction Hall as [|m rest Hm _ IH]; cbn [try_matches]; intros H.
  - now inversion H; subst.
  - pose proof (Hm) as Hm'. unfold captured_int in Hm'.
    destruct (group m 1 ≫= _) as [value|] eqn:E; [|now apply IH].
    apply bind_Some in H as (v & Hv & H).
    assert (0 <= v) as Hnn.
    { destruct (_ || _); [|inversion Hv; subst; now apply Hm'].
      eapply inches_to_cm_nonneg; [|exact Hv]. now apply Hm'. }
    clear Hv.
    destruct (_ && _); [now apply IH|].
    destruct (_ && _); [now apply IH|].
    inversion H; subst. now apply assign_field_ok.
Qed.

Lemma finditer_captures_nonneg (icase : bool) (r : regex) (text : string) :
  digit_group icase r 1 = true ->
  Forall (fun m => ∀ z, captured_int m = Some z -> 0 <= z) (finditer icase r text).
Proof.
  intros Hd. apply Forall_forall. intros m Hin z Hz.
  apply finditer_from_match_at in Hin as [s' Hm].
  unfold captured_int in Hz. apply bind_Some in Hz as (v & Hv & Hz).
  eapply (captured_nonneg icase r 1 _ _ _ _ Hd ltac:(lia)); eauto.
Qed.

Lemma try_patterns_ok (key : string) (is_inches : bool) (text : string)
  (pattern_list : list regex) :
  forallb (fun p => digit_group true p 1) pattern_list = true ->
  forall data data', record_ok data ->
    try_patterns key is_inches text data pattern_list = Some data' ->
    record_ok data'.
Proof.
  induction pattern_list as [|p rest IH]; simpl; intros Hp data data' Hd H.
  - now inversion H; subst.
  - apply andb_true_iff in Hp as [Hp Hrest].
    apply bind_Some in H as (d1 & H1 & H).
    apply try_matches_ok in H1; [|now apply finditer_captures_nonneg|exact Hd].
    destruct (get_truthy d1 (found_key key)); [now inversion H; subst|].
    now apply (IH Hrest d1).
Qed.

Lemma full_text_search_ok (text : string) (data data' : pydict) :
  record_ok data -> full_text_search text data = Some data' -> record_ok data'.
Proof.
  intros Hd H. unfold full_text_search in H.
  assert (Forall (fun p : string * list regex =>
                    forallb (fun r => digit_group true r 1) p.2 = true) patterns)
    as Hpat by (repeat constructor; by_vm).
  revert data Hd H. induction Hpat as [|[key pl] rest Hp _ IH]; intros data Hd H.
  - now inversion H; subst.
  - cbn [for_each] in H. apply bind_Some in H as (d1 & H1 & H).
    apply (IH d1); [|exact H].
    destruct (get_truthy data (found_key key)); [now inversion H1; subst|].
    eapply try_patterns_ok; [exact Hp|exact Hd|exact H1].
Qed.

Lemma ratio_status_ok (pattern : regex) (open_key total_key text : string)
  (data data' : pydict) :
  digit_group true pattern 1 = true -> digit_group true pattern 2 = true ->
  open_key ∈ ["lifts_open"; "runs_open"] -> total_key ∈ ["lifts_total"; "runs_total"] ->
  record_ok data -> ratio_status pattern open_key total_key text data = Some data' ->
  record_ok data'.
Proof.
  intros H1 H2 Ho Ht Hd H. unfold ratio_status in H.
  destruct (search true pattern text) as [m|] eqn:E; [|now inversion H; subst].
  apply search_from_match_at in E as [s' Hm].
  apply bind_Some in H as (s1 & Hs1 & H). apply bind_Some in H as (n1 & Hn1 & H).
  apply bind_Some in H as (s2 & Hs2 & H). apply bind_Some in H as (n2 & Hn2 & H).
  inversion H; subst.
  apply record_ok_insert; [apply record_ok_insert; [exact Hd|]|].
  - apply field_ok_count; [split_elem Ho; in_fields|].
    eapply (captured_nonneg true pattern 1 _ _ _ _ H1 ltac:(lia)); eauto.
  - apply field_ok_count; [split_elem Ht; in_fields|].
    eapply (captured_nonneg true pattern 2 _ _ _ _ H2 ltac:(lia)); eauto.
Qed.

(** X2.  A record returned by the generic extractor holds nothing but the
    twelve known keys: the URL as a string, the date, the temperature as a
    float, and the depths, snowfalls and lift and run counts as integers that
    are never negative. *)
Theorem generic_record_shape (today : date) (soup : Document) (url : string)
  (data : pydict) :
  parse_snow_report_generic today soup url = Some data -> record_ok data.
Proof.
  intros H. unfold parse_snow_report_generic in H.
  apply bind_Some in H as (d0 & H0 & H). apply bind_Some in H as (d1 & H1 & H).
  apply bind_Some in H as (d2 & H2 & H). apply bind_Some in H as (d3 & H3 & H4).
  apply early_strategies_ok in H0.
  apply full_text_search_ok in H1; [|exact H0].
  apply ratio_status_ok in H2; [|by_vm|by_vm|in_fields|in_fields|exact H1].
  apply ratio_status_ok in H3; [|by_vm|by_vm|in_fields|in_fields|exact H2].
  apply temperature_search_cases in H4 as [->|(t & ->)]; [exact H3|].
  apply record_ok_insert; [exact H3|]. right. right. left. split; [reflexivity|eauto].
Qed.

(** ** [extract_number] and the [data-snow] attributes *)

Lemma take_skip_digits (s : string) : s = (take_digits s ++ skip_digits s)%string.
Proof.
  induction s as [|x s IH]; [reflexivity|]. simpl.
  destruct (is_digit x); [|reflexivity].
  change (String x s = String x (take_digits s ++ skip_digits s)%string).
  now rewrite <- IH.
Qed.

Lemma take_digits_all (s : string) : all_digits (take_digits s) = true.
Proof.
  induction s as [|x s IH]; [reflexivity|]. simpl.
  destruct (is_digit x) eqn:E; [|reflexivity]. simpl. now rewrite E.
Qed.

(** Greedy [\d*] followed by something that cannot fail takes all the
    leading digits. *)
Lemma star_greedy_digits {A : Type} (s : string) (k : string -> option A) :
  (forall s', k s' <> None) ->
  star_greedy false CDigit s k = k (skip_digits s).
Proof.
  intros Hk. induction s as [|x s IH]; [reflexivity|]. simpl.
  destruct (is_digit x); [|reflexivity].
  rewrite IH. destruct (k (skip_digits s)) eqn:E; [reflexivity|].
  now apply Hk in E.
Qed.

Lemma match_at_re_number (s : string) :
  match_at false re_number s
  = match s with
    | String x s' =>
        if is_digit x
        then Some {| group0 := String x (take_digits s');
                     captures := [(1%nat, String x (take_digits s'))] |}
        else None
    | EmptyString => None
    end.
Proof.
  destruct s as [|x s]; [reflexivity|].
  unfold match_at, re_number. cbn [rmatch cset_mem].
  destruct (is_digit x) eqn:E; [|reflexivity].
  rewrite star_greedy_digits by discriminate.
  assert (consumed (String x s) (skip_digits s) = String x (take_digits s)) as ->.
  { rewrite (take_skip_digits s) at 1.
    change (String x (take_digits s ++ skip_digits s)%string)
      with (String x (take_digits s) ++ skip_digits s)%string.
    apply consumed_app. }
  reflexivity.
Qed.

Lemma search_re_number (s : string) :
  search false re_number s
  = match first_number s with
    | Some v => Some {| group0 := v; captures := [(1%nat, v)] |}
    | None => None
    end.
Proof.
  induction s as [|x s IH]; cbn [search first_number]; rewrite match_at_re_number.
  - reflexivity.
  - destruct (is_digit x); [reflexivity|exact IH].
Qed.

Lemma first_number_digits (s v : string) :
  first_number s = Some v -> int_of_str v = Some (digits_val 0 v).
Proof.
  induction s as [|x s IH]; [discriminate|]. simpl.
  destruct (is_digit x) eqn:E; [|exact IH].
  intros H. inversion H; subst. unfold int_of_str.
  destruct (Ascii.eqb_spec x "-") as [->|_]; [discriminate|].
  assert (all_digits (String x (take_digits s)) = true) as ->; [|reflexivity].
  simpl. now rewrite E, take_digits_all.
Qed.

Lemma first_number_None (s : string) :
  first_number s = None <-> str_all (fun x => negb (is_digit x)) s = true.
Proof.
  induction s as [|x s IH]; simpl; [tauto|].
  destruct (is_digit x); simpl; [split; discriminate|exact IH].
Qed.

Lemma remove_comma_digits (s : string) :
  str_all (fun x => negb (is_digit x)) (remove_char "," s)
  = str_all (fun x => negb (is_digit x)) s.
Proof.
  induction s as [|x s IH]; [reflexivity|]. simpl.
  destruct (Ascii.eqb_spec x ",") as [->|_]; simpl; now rewrite IH.
Qed.

(** [extract_number] on the first run of digits. *)
Lemma extract_number_run (text : string) :
  extract_number text
  = digits_val 0 <$> first_number (remove_char "," text)
  ∧ (extract_number text = None
     <-> str_all (fun x => negb (is_digit x)) text = true)
  ∧ ∀ n, extract_number text = Some n -> 0 <= n.
Proof.
  assert (extract_number text = digits_val 0 <$> first_number (remove_char "," text))
    as E.
  { unfold extract_number. destruct (String.eqb_spec text "") as [->|_]; [reflexivity|].
    rewrite search_re_number.
    destruct (first_number (remove_char "," text)) as [v|] eqn:Ev; [|reflexivity].
    simpl. exact (first_number_digits _ _ Ev). }
  split; [exact E|]. split.
  - rewrite E, <- remove_comma_digits, <- first_number_None.
    destruct (first_number _); simpl; split; congruence.
  - intros n Hn. rewrite E in Hn.
    destruct (first_number (remove_char "," text)) as [v|] eqn:Ev; [|discriminate].
    simpl in Hn. inversion Hn; subst.
    apply digits_val_nonneg; [lia|].
    clear -Ev. revert Ev. generalize (remove_char "," text). intros s.
    induction s as [|x s IH]; [discriminate|]. simpl.
    destruct (is_digit x) eqn:Ex; [|exact IH].
    intros H. inversion H; subst. simpl. now rewrite Ex, take_digits_all.
Qed.


Lemma data_snow_numbers_pos (soup : Document) :
  Forall (fun n => 0 < n) (data_snow_numbers soup).
Proof.
  unfold data_snow_numbers. apply Forall_forall. intros n Hn.
  apply list_elem_of_omap in Hn as (attr & _ & H).
  destruct (extract_number attr) as [v|] eqn:E; [|discriminate].
  destruct (Z.eqb_spec v 0); [discriminate|]. inversion H; subst.
  pose proof (proj2 (proj2 (extract_number_run attr)) n E). lia.
Qed.

(** X7.  [find_json_data] returns the empty dictionary or a single entry:
    the 24-hour snowfall, set to the number of the last [data-snow] attribute
    that yields a non-zero number.  That number is positive; no bound is
    applied to it. *)
Theorem find_json_data_last_nonzero (soup : Document) :
  find_json_data soup
  = match last (data_snow_numbers soup) with
    | Some n => <["new_snow_24h_cm" := VInt n]> ∅
    | None => ∅
    end
  ∧ Forall (fun n => 0 < n) (data_snow_numbers soup).
Proof.
  split; [|apply data_snow_numbers_pos].
  unfold find_json_data, data_snow_numbers.
  assert (forall l (acc : pydict),
            (acc = ∅ ∨ ∃ n0, acc = <["new_snow_24h_cm" := VInt n0]> ∅) ->
            fold_left
              (fun data attr =>
                 match extract_number attr with
                 | Some snow_val =>
                     if negb (snow_val =? 0)
                     then <["new_snow_24h_cm" := VInt snow_val]> data
                     else data
                 | None => data
                 end) l acc
            = match last (omap
                            (fun attr =>
                               match extract_number attr with
                               | Some n => if n =? 0 then None else Some n
                               | None => None
                               end) l) with
              | Some n => <["new_snow_24h_cm" := VInt n]> ∅
              | None => acc
              end) as H.
  { induction l as [|a l IH]; intros acc Hacc; [reflexivity|].
    cbn [fold_left omap list_omap].
    destruct (extract_number a) as [v|]; [|now apply IH].
    destruct (Z.eqb_spec v 0) as [_|_]; cbn [negb]; [now apply IH|].
    rewrite IH by (right; destruct Hacc as [->|[n0 ->]]; eexists;
                   [reflexivity|apply insert_insert_eq]).
    destruct (omap _ l) as [|b l'] eqn:El; simpl.
    - destruct Hacc as [->|[n0 ->]]; [reflexivity|apply insert_insert_eq].
    - destruct (last (b :: l')) eqn:El2; [reflexivity|].
      apply last_None in El2. discriminate. }
  apply H. now left.
Qed.

(** ** The batch runner *)

Lemma pauses_app (a b : list batch_event) : pauses (a ++ b) = (pauses a + pauses b)%nat.
Proof. induction a as [|[e|d] a IH]; simpl; [reflexivity|exact IH|now rewrite IH]. Qed.

Lemma pauses_within (evs : list event) : pauses (map Within evs) = O.
Proof. induction evs as [|e evs IH]; [reflexivity|exact IH]. Qed.

Lemma batch_fetched_app (a b : list batch_event) :
  batch_fetched (a ++ b) = batch_fetched a ++ batch_fetched b.
Proof.
  induction a as [|[[u|n]|d] a IH]; simpl; [reflexivity| |exact IH|exact IH].
  now rewrite IH.
Qed.

Lemma batch_fetched_within (evs : list event) :
  batch_fetched (map Within evs) = fetched evs.
Proof.
  induction evs as [|[u|n] evs IH]; simpl; [reflexivity| |exact IH].
  now rewrite IH.
Qed.

Section Batch.
Variable today : date.
Variable network : string -> option Document.
Variable sleep_accepts : pynum -> bool.
Variable delay : pynum.

Lemma runs_fetched_cons (r : Resort) (rest : list Resort) :
  runs_fetched today network (r :: rest)
  = fetched (resort_run today network r).2 ++ runs_fetched today network rest.
Proof. reflexivity. Qed.

Lemma scrape_all_from_returned (resorts : list Resort) :
  forall (results0 results : gmap string pydict) (btr0 btr : list batch_event),
    scrape_all_from today network sleep_accepts delay results0 resorts btr0
    = (Returned results, btr) ->
    dom results = dom results0 ∪ list_to_set (name <$> resorts)
    ∧ pauses btr = (pauses btr0 + Nat.pred (length resorts))%nat
    ∧ batch_fetched btr = batch_fetched btr0 ++ runs_fetched today network resorts
    ∧ ((2 <= length resorts)%nat -> sleep_accepts delay = true)
    ∧ (∀ n, n ∉ name <$> resorts -> results !! n = results0 !! n)
    ∧ ∀ l1 r l2, resorts = l1 ++ r :: l2 -> name r ∉ name <$> l2 ->
        ∃ data evs, resort_run today network r = (Returned data, evs)
                    ∧ results !! name r = Some data.
Proof.
  induction resorts as [|r rest IH]; intros results0 results btr0 btr H;
    cbn [scrape_all_from] in H.
  - inversion H; subst. split; [set_solver|]. split; [simpl; lia|].
    split; [now rewrite app_nil_r|]. split; [simpl; lia|]. split; [reflexivity|].
    intros l1 r l2 E. now destruct l1.
  - fold (resort_run today network r) in H.
    destruct (resort_run today network r) as [[data|] evs] eqn:Erun; [|discriminate].
    assert (Hone : scrape_all_from today network sleep_accepts delay
                     (<[name r := data]> results0) rest
                     ((btr0 ++ map Within evs)
                        ++ match rest with [] => [] | _ :: _ => [Pause delay] end)
                   = (Returned results, btr)
                   ∧ (rest ≠ [] -> sleep_accepts delay = true)).
    { destruct rest as [|r2 rest]; [split; [now rewrite app_nil_r|congruence]|].
      destruct (sleep_accepts delay); [split; [exact H|reflexivity]|discriminate]. }
    clear H. destruct Hone as [H Hacc].
    apply IH in H as (Hdom & Hp & Hf & _ & Hother & Hlast).
    split; [|split; [|split; [|split; [|split]]]].
    + rewrite Hdom, dom_insert_L. simpl. set_solver.
    + rewrite Hp, !pauses_app, pauses_within. destruct rest; simpl; lia.
    + rewrite Hf, !batch_fetched_app, batch_fetched_within, runs_fetched_cons, Erun.
      simpl. destruct rest; simpl; now rewrite <- ?app_assoc, ?app_nil_r.
    + intros Hlen. apply Hacc. destruct rest; [simpl in Hlen; lia|discriminate].
    + intros n Hn. rewrite Hother by set_solver.
      apply lookup_insert_ne. set_solver.
    + intros l1 r' l2 E Hnot. destruct l1 as [|x l1]; simpl in E; inversion E; subst.
      * exists data, evs. split; [exact Erun|].
        rewrite Hother by exact Hnot. apply lookup_insert_eq.
      * now apply (Hlast l1 r' l2).
Qed.

Lemma scrape_all_from_raised (l1 : list Resort) (r : Resort) (l2 : list Resort)
  (evs : list event) :
  Forall (fun x => ∃ data e, resort_run today network x = (Returned data, e)) l1 ->
  resort_run today network r = (Raised, evs) ->
  sleep_accepts delay = true ->
  forall (results0 : gmap string pydict) (btr0 : list batch_event),
    ∃ btr, scrape_all_from today network sleep_accepts delay results0
             (l1 ++ r :: l2) btr0
           = (Raised, btr)
           ∧ batch_fetched btr
             = batch_fetched btr0 ++ runs_fetched today network l1 ++ fetched evs.
Proof.
  intros Hl1 Hr Hacc. induction Hl1 as [|x l1 (data & e & Hx) _ IH]; intros results0 btr0.
  - cbn [app scrape_all_from]. fold (resort_run today network r). rewrite Hr.
    eexists. split; [reflexivity|].
    now rewrite batch_fetched_app, batch_fetched_within.
  - cbn [app scrape_all_from]. fold (resort_run today network x). rewrite Hx, Hacc.
    destruct (l1 ++ r :: l2) as [|y l] eqn:El; [now destruct l1|].
    destruct (IH (<[name x := data]> results0) ((btr0 ++ map Within e) ++ [Pause delay]))
      as (btr & Hb & Hf).
    exists btr. split; [exact Hb|].
    rewrite Hf, !batch_fetched_app, batch_fetched_within, runs_fetched_cons, Hx.
    simpl. now rewrite <- !app_assoc, ?app_nil_r.
Qed.

Lemma scrape_all_from_returns (resorts : list Resort) :
  Forall (fun x => ∃ data e, resort_run today network x = (Returned data, e)) resorts ->
  ((2 <= length resorts)%nat -> sleep_accepts delay = true) ->
  forall (results0 : gmap string pydict) (btr0 : list batch_event),
    ∃ results btr,
      scrape_all_from today network sleep_accepts delay results0 resorts btr0
      = (Returned results, btr).
Proof.
  intros Hall. induction Hall as [|x l (data & e & Hx) _ IH]; intros Hacc results0 btr0.
  - eexists _, _. reflexivity.
  - cbn [scrape_all_from]. fold (resort_run today network x). rewrite Hx.
    destruct l as [|y l]; [eexists _, _; reflexivity|].
    rewrite Hacc by (simpl; lia). apply IH. intros _. apply Hacc. simpl. lia.
Qed.

Lemma scrape_all_from_runs (resorts : list Resort) :
  forall (results0 results : gmap string pydict) (btr0 btr : list batch_event),
    scrape_all_from today network sleep_accepts delay results0 resorts btr0
    = (Returned results, btr) ->
    Forall (fun x => ∃ data e, resort_run today network x = (Returned data, e)) resorts.
Proof.
  induction resorts as [|r rest IH]; intros results0 results btr0 btr H;
    [constructor|].
  cbn [scrape_all_from] in H. fold (resort_run today network r) in H.
  destruct (resort_run today network r) as [[data|] evs] eqn:Erun; [|discriminate].
  constructor; [now exists data, evs|].
  destruct rest as [|r2 rest]; [constructor|].
  destruct (sleep_accepts delay); [|discriminate]. exact (IH _ _ _ _ H).
Qed.

End Batch.

(** X6.  When [scrape_all_resorts] returns, the result has exactly the
    resorts' names as keys, each name holds the record of the last resort
    carrying it, every resort was run in order with the scraper chosen for
    its name, and the runner slept once between consecutive resorts: one
    time fewer than there are resorts, and not after the last one. *)
Theorem batch_results (today : date) (network : string -> option Document)
  (sleep_accepts : pynum -> bool) (resorts : list Resort) (delay : pynum)
  (results : gmap string pydict) (btr : list batch_event) :
  scrape_all_resorts today network sleep_accepts resorts delay = (Returned results, btr) ->
  dom results = list_to_set (name <$> resorts)
  ∧ pauses btr = Nat.pred (length resorts)
  ∧ batch_fetched btr = runs_fetched today network resorts
  ∧ ∀ l1 r l2, resorts = l1 ++ r :: l2 -> name r ∉ name <$> l2 ->
      ∃ data evs, resort_run today network r = (Returned data, evs)
                  ∧ results !! name r = Some data.
Proof.
  intros H. apply scrape_all_from_returned in H as (Hdom & Hp & Hf & _ & _ & Hlast).
  split; [rewrite Hdom; set_solver|]. split; [exact Hp|]. split; [exact Hf|exact Hlast].
Qed.

(** X10.  An exception escaping one resort's scraper aborts the batch: the
    runner raises, so nothing is returned for the resorts done before, and
    no URL of a later resort is requested. *)
Theorem batch_aborts_on_exception (today : date) (network : string -> option Document)
  (sleep_accepts : pynum -> bool) (delay : pynum) (l1 : list Resort) (r : Resort)
  (l2 : list Resort) (evs : list event) :
  Forall (fun x => ∃ data e, resort_run today network x = (Returned data, e)) l1 ->
  resort_run today network r = (Raised, evs) ->
  sleep_accepts delay = true ->
  ∃ btr, scrape_all_resorts today network sleep_accepts (l1 ++ r :: l2) delay
         = (Raised, btr)
         ∧ batch_fetched btr = runs_fetched today network l1 ++ fetched evs.
Proof.
  intros Hl1 Hr Hacc.
  destruct (scrape_all_from_raised today network sleep_accepts delay l1 r l2 evs
              Hl1 Hr Hacc ∅ [])
    as (btr & H & Hf).
  exists btr. split; [exact H|exact Hf].
Qed.

(** X11.  [scrape_all_resorts] returns a result exactly when every
    resort's scraper returns and, if there are two resorts or more,
    [time.sleep] takes the delay.  With a single resort or none the delay is
    never looked at. *)
Theorem batch_returns_iff (today : date) (network : string -> option Document)
  (sleep_accepts : pynum -> bool) (resorts : list Resort) (delay : pynum) :
  (∃ results btr,
      scrape_all_resorts today network sleep_accepts resorts delay
      = (Returned results, btr))
  <-> Forall (fun x => ∃ data e, resort_run today network x = (Returned data, e)) resorts
      ∧ ((2 <= length resorts)%nat -> sleep_accepts delay = true).
Proof.
  split.
  - intros (results & btr & H). split.
    + exact (scrape_all_from_runs _ _ _ _ _ _ _ _ _ H).
    + now apply scrape_all_from_returned in H as (_ & _ & _ & Hacc & _).
  - intros [Hall Hacc]. now apply scrape_all_from_returns.
Qed.

(** ** Where an exception can come from *)

Lemma try_urls_raised (today : date) (network : string -> option Document)
  (urls : list string) :
  forall (tr tr' : list event),
    try_urls today network urls tr = (Raised, tr') ->
    ∃ u soup, last (fetched tr') = Some u ∧ u ∈ urls ∧ network u = Some soup
              ∧ parse_snow_report_generic today soup u = None.
Proof.
  induction urls as [|url rest IH]; intros tr tr' H; [discriminate|].
  cbn [try_urls] in H. unfold get_page in H.
  destruct (network url) as [soup|] eqn:En.
  - destruct (parse_snow_report_generic today soup url) as [data|] eqn:Ep.
    + destruct (meaningful data); [discriminate|].
      destruct (IH _ _ H) as (u & soup' & Hl & Hin & Hn & Hp).
      exists u, soup'. split; [exact Hl|]. split; [now apply list_elem_of_further|].
      split; [exact Hn|exact Hp].
    + inversion H; subst. exists url, soup.
      split; [apply fetched_last|]. split; [apply list_elem_of_here|].
      split; [exact En|exact Ep].
  - destruct (IH _ _ H) as (u & soup' & Hl & Hin & Hn & Hp).
    exists u, soup'. split; [exact Hl|]. split; [now apply list_elem_of_further|].
    split; [exact Hn|exact Hp].
Qed.

(** X12.  A scraper raises only when the generic extractor raises on a page
    it has just fetched from a candidate URL.  A resort without URL, a failed
    request and the Vail-specific pass never raise; the Vail scraper raises
    only when its own pass has left the base depth unset. *)
Theorem scraper_raises_only_from_extractor (s : scraper) (today : date)
  (network : string -> option Document) (resort_data : Resort)
  (tr tr' : list event) :
  scrape_with s today network resort_data tr = (Raised, tr') ->
  ∃ u soup, last (fetched tr') = Some u
            ∧ u ∈ urls_to_try resort_data
            ∧ network u = Some soup
            ∧ parse_snow_report_generic today soup u = None
            ∧ (s = VailScraper ->
               get_truthy (VailResortsScraper.specialized_pass today soup u)
                 "snow_depth_base_cm" = false).
Proof.
  intros H. destruct s; unfold scrape_with in H.
  - unfold SnowDataScraper.scrape_resort in H.
    destruct (try_urls today network (urls_to_try resort_data) tr) as [o tr1] eqn:E.
    destruct o as [[data|]|]; try discriminate. inversion H; subst.
    destruct (try_urls_raised _ _ _ _ _ E) as (u & soup & Hl & Hin & Hn & Hp).
    exists u, soup. repeat (split; [assumption|]). discriminate.
  - unfold VailResortsScraper.scrape_resort in H.
    destruct (str_truthy (py_or _ _)) eqn:Et; cbn [negb] in H; [|discriminate].
    destruct (py_or_head resort_data Et) as [rest Hrest].
    unfold get_page in H.
    destruct (network _) as [soup|] eqn:En; [|discriminate].
    destruct (get_truthy _ "snow_depth_base_cm") eqn:Eb; cbn [negb] in H;
      [discriminate|].
    destruct (parse_snow_report_generic _ _ _) eqn:Ep; [discriminate|].
    inversion H; subst. eexists _, soup.
    split; [apply fetched_last|]. split; [rewrite Hrest; apply list_elem_of_here|].
    split; [exact En|]. split; [exact Ep|]. intros _. exact Eb.
Qed.

(** ** The properties at sample inputs *)

(** The page [Base: 50in]. *)
Lemma generic_record_bookkeeping_witness :
  base_50_record url_report !! "scraped_url" = Some (VStr url_report)
  ∧ base_50_record url_report !! "scrape_date" = Some (VDate a_day).
Proof.
  apply (generic_record_bookkeeping a_day (text_only "Base: 50in") url_report).
  by_vm.
Defined.

Lemma generic_record_shape_witness : record_ok (base_50_record url_report).
Proof.
  apply (generic_record_shape a_day (text_only "Base: 50in") url_report).
  by_vm.
Defined.

(** The first request fails, the second page is meaningful. *)
Lemma generic_scrape_result_witness :
  (meaningful (runs_record url_site) = true
   ∧ ∃ u soup, last (fetched [EvFetch url_report; EvFetch url_site]) = Some u
               ∧ u ∈ urls_to_try (two_url_resort "Alta")
               ∧ web None (Some (text_only "Trail status: 12/20 runs open")) u
                 = Some soup
               ∧ parse_snow_report_generic a_day soup u = Some (runs_record url_site)
               ∧ runs_record url_site !! "scraped_url" = Some (VStr u))
  ∨ (meaningful (runs_record url_site) = false
     ∧ fetched [EvFetch url_report; EvFetch url_site]
       = fetched [] ++ urls_to_try (two_url_resort "Alta")
     ∧ runs_record url_site
       = <["scrape_date" := VDate a_day]>
           (<["scraped_url" :=
                val_of_str (py_or (snow_report_url (two_url_resort "Alta"))
                                  (website_url (two_url_resort "Alta")))]> ∅)).
Proof.
  apply (generic_scrape_result a_day
           (web None (Some (text_only "Trail status: 12/20 runs open")))
           (two_url_resort "Alta") [] [EvFetch url_report; EvFetch url_site]
           (runs_record url_site)).
  by_vm.
Defined.

(** A scrape that ends in an exception after one request. *)
Lemma scrapers_fetch_only_candidates_witness :
  ∃ l, fetched [EvFetch url_report] = fetched [] ++ l
       ∧ l `prefix_of` urls_to_try brighton
       ∧ (length l <= 2)%nat
       ∧ (GenericScraper = VailScraper -> (length l <= 1)%nat)
       ∧ ∀ u, u ∈ l ->
              u ≠ "" ∧ (snow_report_url brighton = Some u
                        ∨ website_url brighton = Some u).
Proof.
  apply (scrapers_fetch_only_candidates GenericScraper a_day
           (web (Some overlong_page) None) brighton [] [EvFetch url_report] Raised).
  by_vm.
Defined.

Lemma generic_has_data_iff_meaningful_witness :
  has_data (runs_record url_site) = meaningful (runs_record url_site).
Proof.
  apply (generic_has_data_iff_meaningful a_day
           (web None (Some (text_only "Trail status: 12/20 runs open")))
           (two_url_resort "Alta") [] [EvFetch url_report; EvFetch url_site]).
  by_vm.
Defined.

(** A Vail page that reads [Base: 50in]. *)
Lemma vail_record_bookkeeping_witness :
  (base_50_record url_report = ∅
   ∧ (str_truthy (py_or (snow_report_url (two_url_resort "Vail"))
                        (website_url (two_url_resort "Vail"))) = false
      ∨ web (Some (text_only "Base: 50in")) None
          (default "" (py_or (snow_report_url (two_url_resort "Vail"))
                             (website_url (two_url_resort "Vail")))) = None))
  ∨ (∃ url soup,
        py_or (snow_report_url (two_url_resort "Vail"))
              (website_url (two_url_resort "Vail")) = Some url
        ∧ web (Some (text_only "Base: 50in")) None url = Some soup
        ∧ base_50_record url_report !! "scraped_url" = Some (VStr url)
        ∧ base_50_record url_report !! "scrape_date" = Some (VDate a_day)).
Proof.
  apply (vail_record_bookkeeping a_day (web (Some (text_only "Base: 50in")) None)
           (two_url_resort "Vail") [] [EvFetch url_report]).
  by_vm.
Defined.


(** Two resorts, a delay of two seconds. *)
Lemma batch_results_witness :
  dom (<["Vail" := base_50_record url_report]>
         (<["Alta" := runs_record url_site]> (∅ : gmap string pydict)))
  = list_to_set (name <$> [alta; two_url_resort "Vail"])
  ∧ pauses [Within (EvFetch url_site); Pause (PyInt 2); Within (EvFetch url_report)]
    = Nat.pred (length [alta; two_url_resort "Vail"])
  ∧ batch_fetched
      [Within (EvFetch url_site); Pause (PyInt 2); Within (EvFetch url_report)]
    = runs_fetched a_day
        (web (Some (text_only "Base: 50in"))
             (Some (text_only "Trail status: 12/20 runs open")))
        [alta; two_url_resort "Vail"]
  ∧ ∀ l1 r l2, [alta; two_url_resort "Vail"] = l1 ++ r :: l2 ->
      name r ∉ name <$> l2 ->
      ∃ data evs,
        resort_run a_day
          (web (Some (text_only "Base: 50in"))
               (Some (text_only "Trail status: 12/20 runs open"))) r
        = (Returned data, evs)
        ∧ (<["Vail" := base_50_record url_report]>
             (<["Alta" := runs_record url_site]> (∅ : gmap string pydict)))
            !! name r = Some data.
Proof.
  apply (batch_results a_day
           (web (Some (text_only "Base: 50in"))
                (Some (text_only "Trail status: 12/20 runs open")))
           up_to_a_day [alta; two_url_resort "Vail"] (PyInt 2)).
  by_vm.
Defined.

(** The second of three resorts serves the page with the overlong number. *)
Lemma batch_aborts_on_exception_witness :
  ∃ btr,
    scrape_all_resorts a_day (web (Some overlong_page) (Some (text_only "Base: 50in")))
      up_to_a_day ([alta] ++ brighton :: [two_url_resort "Vail"]) (PyInt 2)
    = (Raised, btr)
    ∧ batch_fetched btr
      = runs_fetched a_day (web (Some overlong_page) (Some (text_only "Base: 50in")))
          [alta]
        ++ fetched [EvFetch url_report].
Proof.
  apply (batch_aborts_on_exception a_day
           (web (Some overlong_page) (Some (text_only "Base: 50in")))
           up_to_a_day (PyInt 2) [alta] brighton [two_url_resort "Vail"]
           [EvFetch url_report]).
  - constructor; [|constructor].
    exists (base_50_record url_site), [EvFetch url_site]. by_vm.
  - by_vm.
  - reflexivity.
Defined.

(** Two resorts and a negative delay: the batch does not return. *)
Lemma batch_returns_iff_witness :
  ¬ ∃ results btr,
      scrape_all_resorts a_day (web (Some (text_only "Base: 50in")) None) up_to_a_day
        [alta; brighton] (PyInt (-1))
      = (Returned results, btr).
Proof.
  intros H.
  apply (batch_returns_iff a_day (web (Some (text_only "Base: 50in")) None) up_to_a_day
           [alta; brighton] (PyInt (-1))) in H.
  destruct H as [_ H]. specialize (H ltac:(simpl; lia)). discriminate H.
Defined.

(** A page with an overlong number, served to the Vail scraper. *)
Lemma scraper_raises_only_from_extractor_witness :
  ∃ u soup, last (fetched [EvFetch url_report]) = Some u
            ∧ u ∈ urls_to_try (two_url_resort "Vail")
            ∧ web (Some overlong_page) None u = Some soup
            ∧ parse_snow_report_generic a_day soup u = None
            ∧ (VailScraper = VailScraper ->
               get_truthy (VailResortsScraper.specialized_pass a_day soup u)
                 "snow_depth_base_cm" = false).
Proof.
  apply (scraper_raises_only_from_extractor VailScraper a_day
           (web (Some overlong_page) None) (two_url_resort "Vail") []
           [EvFetch url_report]).
  by_vm.
Defined.
